(** * Lunia WhatsApp agent: session store, service-intent matcher and
      conversation orchestrator

    A shallow embedding of
      - [src/services/session_manager.py] and [src/models/schemas.py]
        (module [SessionManager]),
      - [src/services/agent_service_integration.py]
        (module [ServiceIntegration]),
      - [src/agents/lunia_agent_enhanced.py] (module [LuniaAgent]),
    with the small fragment of Python's [str] and [re] they rely on.

    Conventions of the embedding.
      - A Python [str] is a Rocq [string] holding its UTF-8 encoding, so
        that the literals of the source are the bytes of the source file.
        Lengths, slices, [strip] and the classes of the patterns work on
        characters (code points), not bytes.  Whitespace is the set of
        [str.isspace].  What Python knows of the characters above U+007F
        beyond that (letters, digits, lower-case forms, case folding) is a
        parameter [Unicode] of the definitions; below U+0080 everything is
        spelled out.
      - A naive [datetime] is an integer count of microseconds on a line
        whose origin is a midnight; a [timedelta] is a difference on it.
      - [datetime.now()] is an explicit argument [now].
      - External collaborators (mail, calendar, table store, knowledge base,
        message channel) are oracles of an environment that return or
        raise; each call is appended to a log so that invocations can be
        counted.
      - [async] and [await] are erased: an awaited call is a call.  The
        nodes of the workflow graph are given one by one, as the functions
        they are; running the compiled graph is the library's matter and is
        not modelled. *)

From Stdlib Require Import String Ascii List ZArith QArith Lia Bool.
From stdpp Require Import gmap strings list.

Open Scope string_scope.
Open Scope list_scope.

(** ** Python strings *)

Module PyStr.

Definition nl : string := String (ascii_of_nat 10) EmptyString.

Definition code (c : ascii) : nat := nat_of_ascii c.

(** *** Bytes and code points

    A [str] is kept as its UTF-8 encoding.  A byte [10xxxxxx] continues the
    character that the bytes before it began. *)

Definition is_cont (c : ascii) : bool :=
  (128 <=? code c)%nat && (code c <? 192)%nat.

(** The text has no character above U+007F. *)
Fixpoint is_ascii (s : string) : bool :=
  match s with
  | EmptyString => true
  | String c t => (code c <? 128)%nat && is_ascii t
  end.

(** The low six bits of a continuation byte. *)
Definition low6 (c : ascii) : N := N.of_nat (code c - 128).

(** The first character of [s], as a code point, and what follows it.  A
    byte that does not begin a well-formed sequence stands for itself (as
    the lone surrogate U+DC00 + byte, which belongs to no class). *)
Definition next_char (s : string) : option (N * string) :=
  match s with
  | EmptyString => None
  | String b0 t0 =>
      let n0 := code b0 in
      let stray := Some (56320 + N.of_nat n0, t0)%N in
      if (n0 <? 128)%nat then Some (N.of_nat n0, t0)
      else
        match t0 with
        | String b1 t1 =>
            if (192 <=? n0)%nat && (n0 <? 224)%nat then
              if is_cont b1
              then Some (N.of_nat (n0 - 192) * 64 + low6 b1, t1)%N
              else stray
            else
              match t1 with
              | String b2 t2 =>
                  if (224 <=? n0)%nat && (n0 <? 240)%nat then
                    if is_cont b1 && is_cont b2
                    then Some ((N.of_nat (n0 - 224) * 64 + low6 b1) * 64
                               + low6 b2, t2)%N
                    else stray
                  else
                    match t2 with
                    | String b3 t3 =>
                        if (240 <=? n0)%nat && (n0 <? 248)%nat
                           && is_cont b1 && is_cont b2 && is_cont b3
                        then Some (((N.of_nat (n0 - 240) * 64 + low6 b1) * 64
                                    + low6 b2) * 64 + low6 b3, t3)%N
                        else stray
                    | EmptyString => stray
                    end
              | EmptyString => stray
              end
        | EmptyString => stray
        end
  end.

(** The UTF-8 encoding of a code point. *)
Definition byte_of (n : N) : ascii := ascii_of_N n.

Definition utf8 (cp : N) : string :=
  if (cp <? 128)%N then String (byte_of cp) EmptyString
  else if (cp <? 2048)%N then
    String (byte_of (192 + cp / 64))
      (String (byte_of (128 + cp mod 64)) EmptyString)
  else if (cp <? 65536)%N then
    String (byte_of (224 + cp / 4096))
      (String (byte_of (128 + (cp / 64) mod 64))
         (String (byte_of (128 + cp mod 64)) EmptyString))
  else
    String (byte_of (240 + cp / 262144))
      (String (byte_of (128 + (cp / 4096) mod 64))
         (String (byte_of (128 + (cp / 64) mod 64))
            (String (byte_of (128 + cp mod 64)) EmptyString))).

(** *** Character classes *)

Definition is_upper (c : ascii) : bool :=
  (65 <=? code c)%nat && (code c <=? 90)%nat.

Definition is_lower (c : ascii) : bool :=
  (97 <=? code c)%nat && (code c <=? 122)%nat.

(** The characters for which [str.isspace] holds, which are those of the
    class [\s] and those that [str.strip] removes. *)
Definition spaces : list N :=
  [ 9; 10; 11; 12; 13; 28; 29; 30; 31; 32; 133; 160; 5760;
    8192; 8193; 8194; 8195; 8196; 8197; 8198; 8199; 8200; 8201; 8202;
    8232; 8233; 8239; 8287; 12288 ]%N.

Definition is_space (cp : N) : bool := existsb (N.eqb cp) spaces.

(** Their encodings. *)
Definition space_encodings : list string :=
  Eval vm_compute in map utf8 spaces.

(** [s.lower()] on ASCII text *)
Definition lower_char (c : ascii) : ascii :=
  if is_upper c then ascii_of_nat (code c + 32) else c.

Fixpoint lower_ascii (s : string) : string :=
  match s with
  | EmptyString => EmptyString
  | String c t => String (lower_char c) (lower_ascii t)
  end.

(** What Python knows of the characters above U+007F, which this
    development does not spell out: the Unicode tables of the interpreter.
    Below U+0080 every class and mapping is written out. *)
Class Unicode : Type := {
  (* [s.lower()] for a text that is not pure ASCII *)
  lower_text : string -> string;
  (* [c.isalnum()] for a character above U+007F *)
  alnum : N -> bool;
  (* the value of a decimal digit above U+007F, if the character is one *)
  decimal : N -> option Z;
  (* whether [re.IGNORECASE] lets the pattern's ASCII character match a
     character above U+007F *)
  fold_eq : N -> N -> bool
}.

(** The tables that know no character above U+007F: none is a letter or a
    digit, none has a lower-case form.  They serve to evaluate the code on
    ASCII text. *)
Definition plain : Unicode :=
  {| lower_text := lower_ascii;
     alnum := fun _ => false;
     decimal := fun _ => None;
     fold_eq := fun _ _ => false |}.

(** Byte-level length, prefix and suffix, for positions inside a text. *)
Definition blen (s : string) : nat := String.length s.

Fixpoint btake (n : nat) (s : string) : string :=
  match n, s with
  | S n', String c t => String c (btake n' t)
  | _, _ => EmptyString
  end.

Fixpoint bdrop (n : nat) (s : string) : string :=
  match n, s with
  | S n', String _ t => bdrop n' t
  | _, _ => s
  end.

Section Text.
Context `{U : Unicode}.

(** [s.lower()] *)
Definition lower (s : string) : string :=
  if is_ascii s then lower_ascii s else lower_text s.

(** The value of a decimal digit (the class [\d], and what [int] reads). *)
Definition digit_value (cp : N) : option Z :=
  if (cp <? 128)%N then
    if (48 <=? cp)%N && (cp <=? 57)%N then Some (Z.of_N cp - 48)%Z else None
  else decimal cp.

Definition is_digit (cp : N) : bool :=
  match digit_value cp with Some _ => true | None => false end.

(** The class [\w]. *)
Definition is_word (cp : N) : bool :=
  if (cp <? 128)%N then
    ((65 <=? cp)%N && (cp <=? 90)%N) || ((97 <=? cp)%N && (cp <=? 122)%N)
    || ((48 <=? cp)%N && (cp <=? 57)%N) || (cp =? 95)%N
  else alnum cp.

(** [int(s)] on a run of decimal digits *)
Fixpoint int_digits (fuel : nat) (acc : Z) (s : string) : Z :=
  match fuel with
  | O => acc
  | S fuel' =>
      match next_char s with
      | Some (cp, t) =>
          int_digits fuel' (10 * acc + default 0%Z (digit_value cp)) t
      | None => acc
      end
  end.

Definition int_of (s : string) : Z := int_digits (blen s) 0 s.

End Text.

(** [len(s)]: the number of characters *)
Fixpoint len (s : string) : nat :=
  match s with
  | EmptyString => 0
  | String c t => (if is_cont c then 0 else 1) + len t
  end.

Definition is_empty (s : string) : bool :=
  match s with EmptyString => true | _ => false end.

(** [s.startswith(p)] *)
Definition startswith (p s : string) : bool := String.prefix p s.

(** [needle in s] *)
Fixpoint contains (needle s : string) : bool :=
  String.prefix needle s
  || match s with
     | EmptyString => false
     | String _ t => contains needle t
     end.

(** [s.lstrip()], [s.rstrip()], [s.strip()] *)

(** What follows the whitespace character that [s] begins with, if it
    begins with one. *)
Definition space_prefix (s : string) : option string :=
  match find (fun e => String.prefix e s) space_encodings with
  | Some e => Some (bdrop (blen e) s)
  | None => None
  end.

Fixpoint lstrip_fuel (fuel : nat) (s : string) : string :=
  match fuel with
  | O => s
  | S fuel' =>
      match space_prefix s with
      | Some t => lstrip_fuel fuel' t
      | None => s
      end
  end.

Definition lstrip (s : string) : string := lstrip_fuel (blen s) s.

(** [s] is one whitespace character. *)
Definition is_space_char (s : string) : bool :=
  existsb (String.eqb s) space_encodings.

Fixpoint rstrip (s : string) : string :=
  match s with
  | EmptyString => EmptyString
  | String c t =>
      let t' := rstrip t in
      if is_space_char (String c t') then EmptyString else String c t'
  end.

Definition strip (s : string) : string := rstrip (lstrip s).

(** [s[:n]] for [0 <= n]: the first [n] characters *)
Fixpoint take_str (n : nat) (s : string) : string :=
  match s with
  | EmptyString => EmptyString
  | String c t =>
      if is_cont c then String c (take_str n t)
      else match n with
           | O => EmptyString
           | S n' => String c (take_str n' t)
           end
  end.

(** [s[n:]] for [0 <= n]: what follows the first [n] characters *)
Fixpoint skip_cont (s : string) : string :=
  match s with
  | EmptyString => EmptyString
  | String c t => if is_cont c then skip_cont t else s
  end.

Fixpoint drop_str (n : nat) (s : string) : string :=
  match n with
  | O => s
  | S n' =>
      match s with
      | EmptyString => EmptyString
      | String _ t => drop_str n' (skip_cont t)
      end
  end.

(** [x in xs] for a list of strings *)
Definition mem (x : string) (xs : list string) : bool :=
  existsb (String.eqb x) xs.

(** [any(word in s for word in words)] *)
Definition any_in (words : list string) (s : string) : bool :=
  existsb (fun w => contains w s) words.

(** [any(s.startswith(word) for word in words)] *)
Definition any_prefix (words : list string) (s : string) : bool :=
  existsb (fun w => startswith w s) words.

(** Truthiness of a string: [if s:] *)
Definition truthy (s : string) : bool := negb (is_empty s).

(** An ASCII byte that is not whitespace: no whitespace character has it
    among its bytes. *)
Definition is_solid (c : ascii) : bool :=
  (code c <? 128)%nat && negb (is_space (N.of_nat (code c))).

Fixpoint any_byte (p : ascii -> bool) (s : string) : bool :=
  match s with
  | EmptyString => false
  | String c t => p c || any_byte p t
  end.

(** A keyword that begins and ends with such a byte: [strip] keeps it. *)
Definition starts_nonspace (kw : string) : bool :=
  match kw with
  | EmptyString => false
  | String c _ => is_solid c
  end.

Fixpoint ends_nonspace (kw : string) : bool :=
  match kw with
  | EmptyString => false
  | String c EmptyString => is_solid c
  | String _ t => ends_nonspace t
  end.

(** [kw] occurs in [s] as a word of its own: the occurrence neither follows
    nor precedes a letter.  This is the reading of "contains the word", as
    opposed to the substring test [contains] that the agent performs. *)
Definition is_letter (c : ascii) : bool := is_upper c || is_lower c.

Definition next_is_letter (s : string) : bool :=
  match s with
  | EmptyString => false
  | String c _ => is_letter c
  end.

Fixpoint word_occurs_from (after_letter : bool) (kw s : string) : bool :=
  (negb after_letter && String.prefix kw s
     && negb (next_is_letter (drop_str (len kw) s)))
  || match s with
     | EmptyString => false
     | String c t => word_occurs_from (is_letter c) kw t
     end.

Definition word_occurs (kw s : string) : bool := word_occurs_from false kw s.

End PyStr.

(** ** A backtracking matcher for the regular expressions of the source

    The matcher is written in continuation-passing style, so that the order
    in which alternatives are tried is Python's: a greedy repetition takes
    as many iterations as it can and gives them back one at a time, the left
    branch of [|] is tried before the right one, and [re.search] returns the
    match at the leftmost position where one exists.  A class consumes one
    character, whatever the number of its bytes. *)

Module Re.
Import PyStr.

Inductive regex : Type :=
| Eps
| Chr (c : ascii)                  (* a literal ASCII character *)
| Cls (p : N -> bool)              (* a character class *)
| Seq (r1 r2 : regex)
| Alt (r1 r2 : regex)
| Star (r : regex)                 (* greedy [*] *)
| Grp (n : nat) (r : regex).       (* capture group number [n] *)

Definition Plus (r : regex) : regex := Seq r (Star r).
Definition Opt (r : regex) : regex := Alt r Eps.

Fixpoint Lit (s : string) : regex :=
  match s with
  | EmptyString => Eps
  | String c EmptyString => Chr c
  | String c t => Seq (Chr c) (Lit t)
  end.

Fixpoint Alts (rs : list regex) : regex :=
  match rs with
  | [] => Cls (fun _ => false)
  | [r] => r
  | r :: rs' => Alt r (Alts rs')
  end.

(** Captures: group number and captured text, the most recent first. *)
Definition captures : Type := list (nat * string).

Fixpoint group (n : nat) (cs : captures) : option string :=
  match cs with
  | [] => None
  | (m, s) :: cs' => if (n =? m)%nat then Some s else group n cs'
  end.

(** A successful match: the matched text ([m.group()]), the groups, and the
    input that follows the match. *)
Record rmatch_result : Type := MkMatch {
  m_text : string;
  m_groups : captures;
  m_rest : string
}.

(** [s] begins at the boundary of a character. *)
Definition at_boundary (s : string) : bool :=
  match s with
  | EmptyString => true
  | String c _ => negb (is_cont c)
  end.

(** The lower-case form of an ASCII character. *)
Definition fold_ascii (cp : N) : N :=
  if (65 <=? cp)%N && (cp <=? 90)%N then (cp + 32)%N else cp.

(** The classes of the patterns that are the same in every table. *)
Definition ws : regex := Cls is_space.                         (* \s *)
Definition non_ws : regex := Cls (fun c => negb (is_space c)). (* [^\s] *)
Definition non_digit : regex :=                                (* [^0-9] *)
  Cls (fun c => negb ((48 <=? c)%N && (c <=? 57)%N)).
Definition dot : regex := Cls (fun c => negb (c =? 10)%N).     (* . *)

Section Matcher.
Context `{U : Unicode}.

Definition digit : regex := Cls is_digit.                      (* \d *)
Definition word : regex := Cls is_word.                        (* \w *)
Definition addr_char : regex :=                                (* [\w\.-] *)
  Cls (fun c => is_word c || (c =? 46)%N || (c =? 45)%N).

(** Whether the pattern's character [c] matches the character [x] of the
    text. *)
Definition chr_eq (icase : bool) (c : ascii) (x : N) : bool :=
  let c := N.of_nat (code c) in
  if icase then
    if (x <? 128)%N then (fold_ascii c =? fold_ascii x)%N else fold_eq c x
  else (c =? x)%N.

(** [rmatch icase r s cs k]: match [r] at the start of [s], then hand the
    rest of the input and the captures to [k]; [None] is failure, on which
    the caller backtracks. *)
Fixpoint rmatch {A : Type} (icase : bool) (r : regex) (s : string)
    (cs : captures) (k : string -> captures -> option A) : option A :=
  match r with
  | Eps => k s cs
  | Chr c =>
      match next_char s with
      | Some (x, t) => if chr_eq icase c x then k t cs else None
      | None => None
      end
  | Cls p =>
      match next_char s with
      | Some (x, t) => if p x then k t cs else None
      | None => None
      end
  | Seq r1 r2 =>
      rmatch icase r1 s cs (fun s1 cs1 => rmatch icase r2 s1 cs1 k)
  | Alt r1 r2 =>
      match rmatch icase r1 s cs k with
      | Some x => Some x
      | None => rmatch icase r2 s cs k
      end
  | Star r1 =>
      (fix loop (fuel : nat) (s : string) (cs : captures) : option A :=
         match fuel with
         | O => k s cs
         | S fuel' =>
             match rmatch icase r1 s cs
                     (fun s1 cs1 =>
                        if (blen s1 <? blen s)%nat
                        then loop fuel' s1 cs1 else None) with
             | Some x => Some x
             | None => k s cs
             end
         end) (blen s) s cs
  | Grp n r1 =>
      rmatch icase r1 s cs
        (fun s1 cs1 => k s1 ((n, btake (blen s - blen s1) s) :: cs1))
  end.

Definition match_here (icase : bool) (r : regex) (s : string)
  : option rmatch_result :=
  if at_boundary s then
    rmatch icase r s []
      (fun s1 cs1 => Some (MkMatch (btake (blen s - blen s1) s) cs1 s1))
  else None.

(** [re.search(r, s)] *)
Fixpoint search (icase : bool) (r : regex) (s : string)
  : option rmatch_result :=
  match match_here icase r s with
  | Some m => Some m
  | None =>
      match s with
      | EmptyString => None
      | String _ t => search icase r t
      end
  end.

(** [re.findall(r, s)] for a pattern without groups that cannot match the
    empty string: the matched texts, left to right, without overlap. *)
Fixpoint findall_fuel (fuel : nat) (icase : bool) (r : regex) (s : string)
  : list string :=
  match fuel with
  | O => []
  | S fuel' =>
      match match_here icase r s with
      | Some m =>
          if (blen (m_rest m) <? blen s)%nat
          then m_text m :: findall_fuel fuel' icase r (m_rest m)
          else match s with
               | EmptyString => []
               | String _ t => findall_fuel fuel' icase r t
               end
      | None =>
          match s with
          | EmptyString => []
          | String _ t => findall_fuel fuel' icase r t
          end
      end
  end.

Definition findall (icase : bool) (r : regex) (s : string) : list string :=
  findall_fuel (S (blen s)) icase r s.

(** [re.sub(r, '', s)] for a pattern that cannot match the empty string. *)
Fixpoint remove_fuel (fuel : nat) (icase : bool) (r : regex) (s : string)
  : string :=
  match fuel with
  | O => s
  | S fuel' =>
      match s with
      | EmptyString => EmptyString
      | String c t =>
          match match_here icase r s with
          | Some m =>
              if (blen (m_rest m) <? blen s)%nat
              then remove_fuel fuel' icase r (m_rest m)
              else String c (remove_fuel fuel' icase r t)
          | None => String c (remove_fuel fuel' icase r t)
          end
      end
  end.

Definition remove_all (icase : bool) (r : regex) (s : string) : string :=
  remove_fuel (S (blen s)) icase r s.

End Matcher.

End Re.

(** ** Naive datetimes *)

Module Time.

Definition second : Z := 1000000.
Definition minute : Z := 60 * second.
Definition hour : Z := 60 * minute.
Definition day : Z := 24 * hour.
Definition week : Z := 7 * day.

(** [timedelta(minutes=m)], [timedelta(hours=h)], [timedelta(days=d)] *)
Definition minutes (m : Z) : Z := m * minute.
Definition hours (h : Z) : Z := h * hour.
Definition days (d : Z) : Z := d * day.

(** [t.hour], [t.minute] *)
Definition hour_of (t : Z) : Z := (t / hour) mod 24.
Definition minute_of (t : Z) : Z := (t / minute) mod 60.

Definition midnight (t : Z) : Z := t - t mod day.

(** [t.replace(hour=h, minute=m, second=0, microsecond=0)]; Python raises
    [ValueError] when a field is out of range, which is [None] here. *)
Definition replace_hm (t h m : Z) : option Z :=
  if (0 <=? h)%Z && (h <=? 23)%Z && (0 <=? m)%Z && (m <=? 59)%Z
  then Some (midnight t + h * hour + m * minute)%Z
  else None.

(** [t.replace(minute=0, second=0, microsecond=0)] *)
Definition floor_hour (t : Z) : Z := (t - t mod hour)%Z.

End Time.

(** ** [src/core/config.py]: the two settings the session store reads *)

Record Settings : Type := {
  SESSION_TIMEOUT_MINUTES : Z;
  MAX_CONVERSATION_HISTORY : Z
}.

(** The defaults of [Settings]. *)
Definition Config : Settings :=
  {| SESSION_TIMEOUT_MINUTES := 30; MAX_CONVERSATION_HISTORY := 10 |}.

(** ** [src/models/schemas.py] *)

Inductive ConversationRole : Type := USER | ASSISTANT | SYSTEM.

Inductive MessageType : Type :=
  TEXT | AUDIO | IMAGE | DOCUMENT | ERROR | SYSTEM_MESSAGE.

Definition Metadata : Type := option (list (string * string)).

Record ConversationTurn : Type := {
  role : ConversationRole;
  content : string;
  timestamp : Z;
  turn_metadata : Metadata
}.

Record UserSession : Type := {
  user_id : string;
  conversation_history : list ConversationTurn;
  created_at : Z;
  last_activity : Z;
  session_metadata : Metadata
}.

Definition set_history (h : list ConversationTurn) (s : UserSession)
  : UserSession :=
  {| user_id := user_id s; conversation_history := h;
     created_at := created_at s; last_activity := last_activity s;
     session_metadata := session_metadata s |}.

Definition set_last_activity (t : Z) (s : UserSession) : UserSession :=
  {| user_id := user_id s; conversation_history := conversation_history s;
     created_at := created_at s; last_activity := t;
     session_metadata := session_metadata s |}.

(** [UserSession.add_turn] *)
Definition add_turn (now : Z) (r : ConversationRole) (c : string)
    (md : Metadata) (s : UserSession) : UserSession :=
  let turn := {| role := r; content := c; timestamp := now;
                 turn_metadata := md |} in
  set_last_activity now
    (set_history (conversation_history s ++ [turn]) s).

(** Python's [l[i:]] for any integer [i]. *)
Definition slice_from {A : Type} (i : Z) (l : list A) : list A :=
  let n := Z.of_nat (length l) in
  let start := if (i <? 0)%Z then Z.max (i + n) 0 else Z.min i n in
  drop (Z.to_nat start) l.

(** ** [src/services/session_manager.py]: [InMemorySessionManager]

    [self._sessions] is a finite map from user ids to sessions; every method
    takes the store and returns its result with the new store. *)

Module SessionManager.

Abbreviation store := (gmap string UserSession).

Definition _is_session_expired (cfg : Settings) (now : Z) (s : UserSession)
  : bool :=
  let timeout := Time.minutes (SESSION_TIMEOUT_MINUTES cfg) in
  (timeout <? now - last_activity s)%Z.

Definition delete_session (uid : string) (st : store) : bool * store :=
  (true, delete uid st).

Definition get_session (cfg : Settings) (now : Z) (uid : string) (st : store)
  : option UserSession * store :=
  match st !! uid with
  | Some session =>
      if _is_session_expired cfg now session
      then (None, snd (delete_session uid st))
      else (Some session, st)
  | None => (None, st)
  end.

Definition save_session (now : Z) (session : UserSession) (st : store)
  : bool * store :=
  let session' := set_last_activity now session in
  (true, <[user_id session' := session']> st).

Definition create_session (now : Z) (uid : string) (st : store)
  : UserSession * store :=
  let session := {| user_id := uid; conversation_history := [];
                    created_at := now; last_activity := now;
                    session_metadata := None |} in
  let '(_, st') := save_session now session st in
  (set_last_activity now session, st').

Definition add_message (cfg : Settings) (now : Z) (uid : string)
    (r : ConversationRole) (c : string) (md : Metadata) (st : store)
  : store :=
  let '(found, st1) := get_session cfg now uid st in
  let '(session, st2) :=
    match found with
    | Some s => (s, st1)
    | None => create_session now uid st1
    end in
  let session1 := add_turn now r c md session in
  let session2 :=
    if (MAX_CONVERSATION_HISTORY cfg
          <? Z.of_nat (length (conversation_history session1)))%Z
    then set_history
           (slice_from (- MAX_CONVERSATION_HISTORY cfg)
              (conversation_history session1)) session1
    else session1 in
  snd (save_session now session2 st2).

Definition cleanup_expired_sessions (cfg : Settings) (now : Z) (st : store)
  : store :=
  let expired_users :=
    (filter (fun kv => _is_session_expired cfg now kv.2 = true)
       (map_to_list st)).*1 in
  foldl (fun acc uid => snd (delete_session uid acc)) st expired_users.

(** One [add_message] call of a run: the clock reading and the arguments. *)
Record append : Type := {
  a_now : Z;
  a_role : ConversationRole;
  a_content : string;
  a_metadata : Metadata
}.

Definition turn_of (a : append) : ConversationTurn :=
  {| role := a_role a; content := a_content a; timestamp := a_now a;
     turn_metadata := a_metadata a |}.

Definition add_messages (cfg : Settings) (uid : string) (l : list append)
    (st : store) : store :=
  foldl (fun acc a =>
           add_message cfg (a_now a) uid (a_role a) (a_content a)
             (a_metadata a) acc) st l.

(** No call of the run finds the session expired: every call comes within
    the timeout of the previous one. *)
Fixpoint within_timeout (cfg : Settings) (prev : Z) (l : list append)
  : Prop :=
  match l with
  | [] => True
  | a :: l' =>
      (a_now a - prev <= Time.minutes (SESSION_TIMEOUT_MINUTES cfg))%Z
      /\ within_timeout cfg (a_now a) l'
  end.

(** The [n] most recent entries of [l], oldest first. *)
Definition most_recent {A : Type} (n : nat) (l : list A) : list A :=
  drop (length l - n) l.

(** The invariant of [self._sessions]: a session is stored under its own
    [user_id] ([save_session] is the only writer). *)
Definition wf_store (st : store) : Prop :=
  forall k s, st !! k = Some s -> user_id s = k.

(** The truncation step of [add_message], named for the proofs. *)
Definition limit_history (cfg : Settings) (s : UserSession) : UserSession :=
  if (MAX_CONVERSATION_HISTORY cfg
        <? Z.of_nat (length (conversation_history s)))%Z
  then set_history
         (slice_from (- MAX_CONVERSATION_HISTORY cfg)
            (conversation_history s)) s
  else s.

(** The session built by [create_session]. *)
Definition fresh_session (now : Z) (uid : string) : UserSession :=
  {| user_id := uid; conversation_history := []; created_at := now;
     last_activity := now; session_metadata := None |}.

(** Sample data: a session of user ["u"] last active at time 0, and two
    appends 31 minutes apart. *)
Definition idle : UserSession :=
  {| user_id := "u"; conversation_history := []; created_at := 0;
     last_activity := 0; session_metadata := None |}.

Definition first_append : append :=
  {| a_now := 0; a_role := USER; a_content := "one"; a_metadata := None |}.

Definition late_append : append :=
  {| a_now := Time.minutes 31; a_role := USER; a_content := "two";
     a_metadata := None |}.

End SessionManager.

(** ** Collaborators and the call log *)

(** The outcome of a call that may raise. *)
Inductive exc (A : Type) : Type :=
| Ok (a : A)
| Raise (msg : string).
Arguments Ok {A} a.
Arguments Raise {A} msg.

(** Values of the dictionaries handed to the table store. *)
Inductive atom : Type :=
| AStr (s : string)
| AInt (n : Z)
| ABool (b : bool)
| ATime (t : Z).                  (* [t.isoformat()] *)

Inductive value : Type :=
| VAtom (a : atom)
| VDict (kvs : list (string * atom)).

Inductive Call : Type :=
| SendEmail (to_email subject body : string)
| CreateEvent (summary description : string) (start_datetime end_datetime : Z)
    (attendees : option (list string)) (location : option string)
| Insert (table : string) (record : list (string * value))
| KbQuery (question context : string)
| SendMessage (phone text : string).

Record Env : Type := {
  (* email_service.send_email(to_email, subject, body) -> bool *)
  send_email : string -> string -> string -> exc bool;
  (* calendar_service.create_event(...) -> event id or None *)
  create_event : string -> string -> Z -> Z -> option (list string) ->
                 option string -> exc (option string);
  (* supabase_service.insert(table, record); its result is never read *)
  insert : string -> list (string * value) -> exc unit;
  (* knowledge_base.query(question, context) -> answer or None *)
  kb_query : string -> string -> exc (option string);
  (* whatsapp_service.send_message(phone, text) -> bool *)
  send_message : string -> string -> exc bool;
  (* t.strftime('%Y-%m-%d %H:%M') *)
  strftime : Z -> string
}.

(** Computations that append to the call log. *)
Definition M (A : Type) : Type := list Call -> A * list Call.

Definition ret {A : Type} (a : A) : M A := fun log => (a, log).

Definition bind {A B : Type} (m : M A) (f : A -> M B) : M B :=
  fun log => let '(a, log') := m log in f a log'.

Definition call {A : Type} (c : Call) (result : A) : M A :=
  fun log => (result, log ++ [c]).

Notation "'let*' x ':=' m 'in' k" := (bind m (fun x => k))
  (at level 10, x name, m at level 100, k at level 200).
Notation "'run' m 'in' k" := (bind m (fun _ => k))
  (at level 10, m at level 100, k at level 200).

(** The calls of a log that satisfy [p], in order, and their number. *)
Definition calls_of (p : Call -> bool) (log : list Call) : list Call :=
  filter (fun c => p c = true) log.

Definition count_calls (p : Call -> bool) (log : list Call) : nat :=
  length (calls_of p log).

Definition is_send_email (c : Call) : bool :=
  match c with SendEmail _ _ _ => true | _ => false end.

Definition is_create_event (c : Call) : bool :=
  match c with CreateEvent _ _ _ _ _ _ => true | _ => false end.

Definition is_kb_query (c : Call) : bool :=
  match c with KbQuery _ _ => true | _ => false end.

Definition is_send_message (c : Call) : bool :=
  match c with SendMessage _ _ => true | _ => false end.

(** Calls made by the service-integration layer. *)
Definition is_service_call (c : Call) : bool :=
  match c with
  | SendEmail _ _ _ | CreateEvent _ _ _ _ _ _ | Insert _ _ => true
  | _ => false
  end.

(** ** [src/services/agent_service_integration.py] *)

Module ServiceIntegration.
Import PyStr Re.

Section Checks.
Context `{U : Unicode}.

(** The dictionary returned by the intent checks. *)
Record ServiceResult : Type := {
  action : string;
  success : bool;
  message : string;
  details : option (list (string * atom))
}.

Definition failure (a m : string) : ServiceResult :=
  {| action := a; success := false; message := m; details := None |}.

Fixpoint seqs (rs : list regex) : regex :=
  match rs with
  | [] => Eps
  | [r] => r
  | r :: rs' => Seq r (seqs rs')
  end.

Definition sp : regex := Plus ws.                    (* \s+ *)
Definition rest1 (n : nat) : regex := Grp n (Plus dot).    (* (.+) *)
Definition token (n : nat) : regex := Grp n (Plus non_ws). (* ([^\s]+) *)

Definition email_patterns : list regex := [
  seqs [Lit "send"; sp; Lit "email"; sp; Lit "to"; sp; token 1];
  seqs [Lit "email"; sp; token 1; sp; Lit "about"; sp; rest1 2];
  seqs [Lit "enviar"; sp; Lit "correo"; sp; Lit "a"; sp; token 1];
  seqs [Lit "mandar"; sp; Lit "email"; sp; Lit "a"; sp; token 1]
].

Definition calendar_patterns : list regex := [
  seqs [Lit "schedule"; sp; Lit "meeting"; sp; rest1 1];
  seqs [Lit "create"; sp; Lit "appointment"; sp; rest1 1];
  seqs [Lit "book"; sp; rest1 1; sp; Lit "on"; sp; rest1 2];
  seqs [Lit "programar"; sp; Lit "cita"; sp; rest1 1];
  seqs [Lit "agendar"; sp; rest1 1; sp; Lit "para"; sp; rest1 2]
].

Definition reminder_patterns : list regex := [
  seqs [Lit "remind"; sp; Lit "me"; sp; rest1 1];
  seqs [Lit "set"; sp; Lit "reminder"; sp; rest1 1];
  seqs [Lit "recordarme"; sp; rest1 1];
  seqs [Lit "crear"; sp; Lit "recordatorio"; sp; rest1 1]
].

(** [[\w\.-]+@[\w\.-]+\.\w+] *)
Definition address : regex :=
  seqs [Plus addr_char; Chr "@"; Plus addr_char; Chr "."; Plus word].

(** [for pattern in patterns: match = re.search(pattern, s); if match: ...]
    where every path of the body returns: the first pattern that matches. *)
Fixpoint first_match (icase : bool) (patterns : list regex) (s : string)
  : option rmatch_result :=
  match patterns with
  | [] => None
  | p :: ps =>
      match search icase p s with
      | Some m => Some m
      | None => first_match icase ps s
      end
  end.

(** *** Extraction helpers *)

Definition subject_patterns : list regex :=
  let marker := Plus (Cls (fun c => (c =? 58)%N || is_space c)) in
  [ seqs [Lit "subject"; marker; rest1 1];
    seqs [Lit "asunto"; marker; rest1 1];
    seqs [Lit "titulo"; marker; rest1 1] ].

Definition _extract_email_subject (message : string) : option string :=
  match first_match true subject_patterns message with
  | Some m =>
      match group 1 (m_groups m) with
      | Some g => Some (strip g)
      | None => None
      end
  | None => None
  end.

Definition _extract_email_body (message recipient : string) : string :=
  let body := message in
  let body := remove_all false address body in
  let body :=
    remove_all true (seqs [Lit "send"; sp; Lit "email"; sp; Lit "to"]) body in
  let body :=
    remove_all true (seqs [Lit "enviar"; sp; Lit "correo"; sp; Lit "a"]) body in
  let body := strip body in
  if (len body <? 10)%nat
  then "Mensaje enviado desde el asistente WhatsApp de Lunia Soluciones."
         +:+ nl +:+ nl +:+ "Contenido: " +:+ message
  else body.

(** The two time patterns; only the first one has a third group. *)
Definition time_patterns : list (regex * nat) := [
  (seqs [Lit "at"; sp; Grp 1 (Seq digit (Opt digit)); Opt (Chr ":");
         Opt (Grp 2 (Seq digit digit)); Star ws;
         Opt (Grp 3 (Alt (Lit "pm") (Lit "am")))], 3%nat);
  (seqs [Lit "a"; sp; Lit "las"; sp; Grp 1 (Seq digit (Opt digit));
         Opt (Chr ":"); Opt (Grp 2 (Seq digit digit))], 2%nat)
].

(** The body of the loop over [time_patterns] once a pattern has matched.
    [m.group(3)] raises [IndexError] on a pattern with two groups, and
    [now.replace] raises [ValueError] on an hour or minute out of range. *)
Definition time_of_match (now : Z) (ngroups : nat) (m : rmatch_result)
  : exc (option Z) :=
  let hour := match group 1 (m_groups m) with
              | Some g => int_of g
              | None => 0%Z
              end in
  let minute := match group 2 (m_groups m) with
                | Some g => if truthy g then int_of g else 0%Z
                | None => 0%Z
                end in
  if (ngroups <? 3)%nat then Raise "no such group"
  else
    let hour :=
      match group 3 (m_groups m) with
      | Some g =>
          if truthy g && String.eqb (lower g) "pm" && (hour <? 12)%Z
          then (hour + 12)%Z else hour
      | None => hour
      end in
    match Time.replace_hm now hour minute with
    | None =>
        if (23 <? hour)%Z then Raise "hour must be in 0..23"
        else Raise "minute must be in 0..59"
    | Some target_time =>
        if (target_time <? now)%Z
        then Ok (Some (target_time + Time.days 1)%Z)
        else Ok (Some target_time)
    end.

Fixpoint scan_time_patterns (now : Z) (ps : list (regex * nat)) (s : string)
  : exc (option Z) :=
  match ps with
  | [] => Ok None
  | (p, ngroups) :: ps' =>
      match search false p s with
      | Some m => time_of_match now ngroups m
      | None => scan_time_patterns now ps' s
      end
  end.

Definition _extract_datetime_from_message (now : Z) (message : string)
  : exc (option Z) :=
  let l := lower message in
  if contains "tomorrow" l || contains "mañana" l
  then Ok (Some (now + Time.days 1)%Z)
  else if contains "next week" l || contains "próxima semana" l
  then Ok (Some (now + Time.week)%Z)
  else if contains "today" l || contains "hoy" l
  then Ok (Some (now + Time.hours 1)%Z)
  else scan_time_patterns now time_patterns l.

Definition _extract_reminder_time (now : Z) (message : string)
  : exc (option Z) :=
  let l := lower message in
  if contains "in 1 hour" l || contains "en 1 hora" l
  then Ok (Some (now + Time.hours 1)%Z)
  else if contains "in 30 minutes" l || contains "en 30 minutos" l
  then Ok (Some (now + Time.minutes 30)%Z)
  else if contains "tomorrow" l || contains "mañana" l
  then Ok (Some (now + Time.days 1)%Z)
  else _extract_datetime_from_message now message.

Record EventDetails : Type := {
  ev_summary : string;
  ev_start_datetime : Z;
  ev_end_datetime : Z;
  ev_attendees : option (list string)
}.

Definition summary_pattern : regex :=
  seqs [Grp 1 (Alts [Lit "schedule"; Lit "create"; Lit "book";
                     Lit "programar"; Lit "agendar"]);
        sp; Grp 2 (Plus non_digit)].

(** [None] is the [except] branch of [_extract_event_details]. *)
Definition _extract_event_details (now : Z) (message : string)
  : option EventDetails :=
  let summary :=
    match search true summary_pattern message with
    | Some m =>
        match group 2 (m_groups m) with
        | Some g => strip g
        | None => EmptyString
        end
    | None => "Reunión programada desde WhatsApp"
    end in
  match _extract_datetime_from_message now message with
  | Raise _ => None
  | Ok time_info =>
      let start :=
        match time_info with
        | Some t => t
        | None => (Time.floor_hour now + Time.hours 1)%Z
        end in
      let attendee_emails := findall false address message in
      Some {| ev_summary := summary;
              ev_start_datetime := start;
              ev_end_datetime := (start + Time.hours 1)%Z;
              ev_attendees := match attendee_emails with
                              | [] => None
                              | _ => Some attendee_emails
                              end |}
  end.

(** *** Intent checks *)

Definition truthy_id (event_id : option string) : bool :=
  match event_id with
  | Some s => truthy s
  | None => false
  end.

(** [_log_service_action]: a failure of the insert is logged and dropped. *)
Definition _log_service_action (E : Env) (now : Z) (user_id action_type : string)
    (dt : list (string * atom)) : M unit :=
  let record := [
    ("user_id", VAtom (AStr user_id));
    ("action_type", VAtom (AStr action_type));
    ("details", VDict dt);
    ("timestamp", VAtom (ATime now));
    ("success", VAtom (ABool true)) ] in
  run call (Insert "service_actions" record) (insert E "service_actions" record)
  in ret tt.

Definition _check_email_intent (E : Env) (now : Z)
    (message message_lower user_id : string) : M (option ServiceResult) :=
  match first_match false email_patterns message_lower with
  | None => ret None
  | Some _ =>
      match search false address message with
      | None =>
          ret (Some (failure "email_error"
            "No se encontró una dirección de email válida en el mensaje."))
      | Some email_match =>
          let recipient_email := m_text email_match in
          let subject :=
            match _extract_email_subject message with
            | Some s => if truthy s then s else "Mensaje de " +:+ user_id
            | None => "Mensaje de " +:+ user_id
            end in
          let body := _extract_email_body message recipient_email in
          let* sent := call (SendEmail recipient_email subject body)
                            (send_email E recipient_email subject body) in
          match sent with
          | Raise e =>
              ret (Some (failure "email_error"
                           ("❌ Error procesando el email: " +:+ e)))
          | Ok true =>
              run _log_service_action E now user_id "email_sent"
                    [ ("recipient", AStr recipient_email);
                      ("subject", AStr subject);
                      ("body_length", AInt (Z.of_nat (len body))) ]
              in ret (Some
                   {| action := "email_sent"; success := true;
                      message := "✅ Email enviado exitosamente a "
                                   +:+ recipient_email;
                      details := Some [ ("recipient", AStr recipient_email);
                                        ("subject", AStr subject) ] |})
          | Ok false =>
              ret (Some (failure "email_error"
                "❌ Error al enviar el email. Verifica la configuración."))
          end
      end
  end.

Definition _check_calendar_intent (E : Env) (now : Z)
    (message message_lower user_id : string) : M (option ServiceResult) :=
  match first_match false calendar_patterns message_lower with
  | None => ret None
  | Some _ =>
      match _extract_event_details now message with
      | None =>
          ret (Some (failure "calendar_error"
            "No pude extraer los detalles del evento. Por favor proporciona más información."))
      | Some ev =>
          let* created :=
            call (CreateEvent (ev_summary ev) "" (ev_start_datetime ev)
                    (ev_end_datetime ev) (ev_attendees ev) None)
                 (create_event E (ev_summary ev) "" (ev_start_datetime ev)
                    (ev_end_datetime ev) (ev_attendees ev) None) in
          match created with
          | Raise e =>
              ret (Some (failure "calendar_error"
                           ("❌ Error procesando el evento: " +:+ e)))
          | Ok event_id =>
              if truthy_id event_id then
                let id := default EmptyString event_id in
                let dt := [ ("event_id", AStr id);
                            ("summary", AStr (ev_summary ev));
                            ("start_time", ATime (ev_start_datetime ev)) ] in
                run _log_service_action E now user_id
                      "calendar_event_created" dt
                in ret (Some
                     {| action := "calendar_event_created"; success := true;
                        message := "📅 Evento creado: " +:+ ev_summary ev
                                     +:+ " para "
                                     +:+ strftime E (ev_start_datetime ev);
                        details := Some dt |})
              else
                ret (Some (failure "calendar_error"
                             "❌ Error al crear el evento en el calendario."))
          end
      end
  end.

Definition _check_reminder_intent (E : Env) (now : Z)
    (message message_lower user_id : string) : M (option ServiceResult) :=
  match first_match false reminder_patterns message_lower with
  | None => ret None
  | Some m =>
      let reminder_text := default EmptyString (group 1 (m_groups m)) in
      let oops e := failure "reminder_error"
                      ("❌ Error procesando el recordatorio: " +:+ e) in
      match _extract_reminder_time now message with
      | Raise e => ret (Some (oops e))
      | Ok found =>
          let reminder_time :=
            match found with
            | Some t => t
            | None => (now + Time.hours 1)%Z
            end in
          let summary := "🔔 Recordatorio: " +:+ reminder_text in
          let description :=
            "Recordatorio solicitado por usuario " +:+ user_id in
          let finish := (reminder_time + Time.minutes 15)%Z in
          let* created :=
            call (CreateEvent summary description reminder_time finish
                    None None)
                 (create_event E summary description reminder_time finish
                    None None) in
          match created with
          | Raise e => ret (Some (oops e))
          | Ok event_id =>
              if truthy_id event_id then
                let id := default EmptyString event_id in
                let record := [
                  ("user_id", VAtom (AStr user_id));
                  ("reminder_text", VAtom (AStr reminder_text));
                  ("reminder_time", VAtom (ATime reminder_time));
                  ("event_id", VAtom (AStr id));
                  ("status", VAtom (AStr "active"));
                  ("created_at", VAtom (ATime now)) ] in
                let* stored := call (Insert "reminders" record)
                                    (insert E "reminders" record) in
                match stored with
                | Raise e => ret (Some (oops e))
                | Ok _ =>
                    ret (Some
                      {| action := "reminder_created"; success := true;
                         message := "⏰ Recordatorio creado: "
                                      +:+ reminder_text +:+ " para "
                                      +:+ strftime E reminder_time;
                         details := Some [
                           ("event_id", AStr id);
                           ("reminder_text", AStr reminder_text);
                           ("reminder_time", ATime reminder_time) ] |})
                end
              else
                ret (Some (failure "reminder_error"
                             "❌ Error al crear el recordatorio."))
          end
      end
  end.

Definition data_keywords : list string := [
  "show me"; "get"; "find"; "search"; "list"; "query";
  "muestra"; "busca"; "encuentra"; "lista"; "consulta" ].

Definition _check_data_intent (E : Env) (now : Z)
    (message message_lower user_id : string) : M (option ServiceResult) :=
  if any_in data_keywords message_lower then
    let record := [
      ("user_id", VAtom (AStr user_id));
      ("query", VAtom (AStr message));
      ("query_type", VAtom (AStr "data_request"));
      ("timestamp", VAtom (ATime now));
      ("processed", VAtom (ABool false)) ] in
    let* stored := call (Insert "user_queries" record)
                        (insert E "user_queries" record) in
    match stored with
    | Raise e =>
        ret (Some (failure "data_error"
                     ("❌ Error procesando la consulta: " +:+ e)))
    | Ok _ =>
        ret (Some
          {| action := "data_query_logged"; success := true;
             message := "📊 Tu consulta ha sido registrada para procesamiento.";
             details := Some [ ("query", AStr message);
                               ("user_id", AStr user_id) ] |})
    end
  else ret None.

Definition no_action : ServiceResult :=
  failure "none" "No service action detected".

Definition process_service_intent (E : Env) (now : Z)
    (message user_id : string) : M ServiceResult :=
  let message_lower := lower message in
  let* email_action :=
    _check_email_intent E now message message_lower user_id in
  match email_action with
  | Some r => ret r
  | None =>
  let* calendar_action :=
    _check_calendar_intent E now message message_lower user_id in
  match calendar_action with
  | Some r => ret r
  | None =>
  let* reminder_action :=
    _check_reminder_intent E now message message_lower user_id in
  match reminder_action with
  | Some r => ret r
  | None =>
  let* data_action :=
    _check_data_intent E now message message_lower user_id in
  match data_action with
  | Some r => ret r
  | None => ret no_action
  end end end end.

End Checks.

End ServiceIntegration.

(** ** [src/agents/lunia_agent_enhanced.py] *)

Module LuniaAgent.
Import PyStr.
Export ServiceIntegration.

Section Agent.
Context `{U : Unicode}.

(** [AgentState], with the attributes the agent adds to it at run time
    ([service_action_taken], [service_action_result], [service_error];
    [getattr(state, 'service_action_taken', False)] makes the first one
    [false] until it is set).  Fields that no node reads are left out. *)
Record AgentState : Type := MkState {
  input_message : string;
  sender_phone : string;
  response : string;
  message_type : MessageType;
  conversation_history : list (string * string);
  processing_errors : list string;
  validation_error : option string;
  message_length : nat;
  is_greeting : bool;
  is_goodbye : bool;
  is_question : bool;
  intent : option string;
  confidence : Q;
  response_sent : bool;
  session_updated : bool;
  service_action_taken : bool;
  service_action_result : option ServiceResult;
  service_error : option string
}.

(** [AgentState(input_message=m, sender_phone=p)] *)
Definition new_state (m p : string) : AgentState :=
  MkState m p EmptyString TEXT [] [] None 0 false false false None (0 # 1)
          false false false None None.

Definition with_input (m : string) (n : nat) (s : AgentState) : AgentState :=
  let '(MkState _ b c d e f g _ i j k l m' n' o p q r) := s in
  MkState m b c d e f g n i j k l m' n' o p q r.

Definition with_validation_error (v : string) (s : AgentState) : AgentState :=
  let '(MkState a b c d e f _ h i j k l m n o p q r) := s in
  MkState a b c d e f (Some v) h i j k l m n o p q r.

Definition with_response (v : string) (s : AgentState) : AgentState :=
  let '(MkState a b _ d e f g h i j k l m n o p q r) := s in
  MkState a b v d e f g h i j k l m n o p q r.

Definition with_message_type (v : MessageType) (s : AgentState) : AgentState :=
  let '(MkState a b c _ e f g h i j k l m n o p q r) := s in
  MkState a b c v e f g h i j k l m n o p q r.

Definition with_response_sent (v : bool) (s : AgentState) : AgentState :=
  let '(MkState a b c d e f g h i j k l m _ o p q r) := s in
  MkState a b c d e f g h i j k l m v o p q r.

Definition with_session_updated (v : bool) (s : AgentState) : AgentState :=
  let '(MkState a b c d e f g h i j k l m n _ p q r) := s in
  MkState a b c d e f g h i j k l m n v p q r.

Definition add_processing_error (v : string) (s : AgentState) : AgentState :=
  let '(MkState a b c d e f g h i j k l m n o p q r) := s in
  MkState a b c d e (f ++ [v]) g h i j k l m n o p q r.

Definition with_flags (g' b' q' : bool) (s : AgentState) : AgentState :=
  let '(MkState a b c d e f g h _ _ _ l m n o p q r) := s in
  MkState a b c d e f g h g' b' q' l m n o p q r.

Definition with_intent (v : string) (c' : Q) (s : AgentState) : AgentState :=
  let '(MkState a b c d e f g h i j k _ _ n o p q r) := s in
  MkState a b c d e f g h i j k (Some v) c' n o p q r.

Definition with_service_result (res : ServiceResult) (s : AgentState)
  : AgentState :=
  let '(MkState a b c d e f g h i j k l m n o _ _ r) := s in
  MkState a b c d e f g h i j k l m n o true (Some res) r.

Definition with_service_error (v : string) (s : AgentState) : AgentState :=
  let '(MkState a b c d e f g h i j k l m n o p q _) := s in
  MkState a b c d e f g h i j k l m n o p q (Some v).

(** [self._max_message_length] *)
Definition _max_message_length : nat := 4000.

(** *** Canned replies *)

(** [_generate_greeting_response] *)
Definition _generate_greeting_response : string :=
  "Â¡Hola! Soy el Asistente AI de Lunia Soluciones. Estoy aquÃ­ " +:+
  "para ayudarte con consultorÃ­a en IA, desarrollo de soluciones, " +:+
  "programaciÃ³n de citas y mÃ¡s. Â¿En quÃ© puedo asistirte hoy?" +:+
  nl +:+
  nl +:+
  "Puedo ayudarte con:" +:+
  nl +:+
  "ðŸ“§ Enviar emails" +:+
  nl +:+
  "ðŸ“… Programar eventos y recordatorios" +:+
  nl +:+
  "ðŸ¤– ConsultorÃ­a en IA" +:+
  nl +:+
  "ðŸ’¼ InformaciÃ³n sobre nuestros servicios".

(** [_generate_goodbye_response] *)
Definition _generate_goodbye_response : string :=
  "Â¡Hasta luego! Gracias por contactar a Lunia Soluciones. " +:+
  "Esperamos poder ayudarte con tus necesidades de IA en el futuro. " +:+
  "Â¡Que tengas un excelente dÃ­a!".

(** [_generate_error_handling_response] *)
Definition _generate_error_handling_response : string :=
  "RecibÃ­ un mensaje de audio, pero hubo un problema al " +:+
  "procesarlo. Â¿PodrÃ­as intentar enviar un mensaje de texto, o " +:+
  "asegurarte de que el audio sea claro?".

(** [_generate_pricing_response] *)
Definition _generate_pricing_response : string :=
  "Nuestros servicios de consultorÃ­a en IA estÃ¡n adaptados a las " +:+
  "necesidades especÃ­ficas de cada cliente. Los precios dependen " +:+
  "del alcance y la complejidad de tu proyecto. Â¿Te gustarÃ­a " +:+
  "programar una consulta para discutir tus requerimientos y " +:+
  "obtener una cotizaciÃ³n personalizada?".

(** [_generate_service_response] *)
Definition _generate_service_response : string :=
  "Lunia Soluciones ofrece servicios integrales de consultorÃ­a en " +:+
  "IA:" +:+
  nl +:+
  nl +:+
  "ðŸŽ¯ Desarrollo de Estrategia en IA" +:+
  nl +:+
  "ðŸ¤– Soluciones de Machine Learning" +:+
  nl +:+
  "ðŸ“Š AnÃ¡lisis de Datos e Insights" +:+
  nl +:+
  "âš™ï¸ AutomatizaciÃ³n de Procesos" +:+
  nl +:+
  "ðŸ”§ Servicios de IntegraciÃ³n de IA" +:+
  nl +:+
  nl +:+
  "Â¿CuÃ¡l de estas Ã¡reas te interesa mÃ¡s?".

(** [_generate_scheduling_response] *)
Definition _generate_scheduling_response : string :=
  "Â¡EstarÃ© encantado de ayudarte a programar una consulta! Por " +:+
  "favor dÃ©jame saber tu horario preferido y podemos organizar una " +:+
  "reuniÃ³n para discutir tus necesidades de IA en detalle." +:+
  nl +:+
  nl +:+
  "TambiÃ©n puedo crear recordatorios y eventos en calendario. Solo " +:+
  "dime quÃ© necesitas programar.".

(** [_generate_service_unavailable_response] *)
Definition _generate_service_unavailable_response (intent : string) : string :=
  if String.eqb intent "email_request" then
    "Entiendo que quieres enviar un email. Esta funcionalidad " +:+
    "requiere configuraciÃ³n adicional. Por favor contacta " +:+
    "directamente a nuestro equipo para asistencia con emails."
  else if String.eqb intent "calendar_request" then
    "Entiendo que quieres programar algo en calendario. Esta " +:+
    "funcionalidad requiere configuraciÃ³n adicional. Por favor " +:+
    "contacta directamente a nuestro equipo para programar citas."
  else
    "Esta funcionalidad no estÃ¡ disponible en este momento. Por " +:+
    "favor contacta directamente a nuestro equipo.".

(** [_generate_fallback_response] *)
Definition _generate_fallback_response : string :=
  "Entiendo que estÃ¡s preguntando sobre eso, pero no tengo " +:+
  "informaciÃ³n especÃ­fica disponible. Â¿PodrÃ­as reformular tu " +:+
  "pregunta o preguntar sobre nuestros servicios de consultorÃ­a en " +:+
  "IA? Estoy aquÃ­ para ayudar con informaciÃ³n sobre las " +:+
  "soluciones y servicios de Lunia.".

(** The invitation appended by [_post_process_response]. *)
Definition anything_else : string :=
  nl +:+
  nl +:+
  "Â¿Hay algo mÃ¡s en lo que pueda ayudarte?".

(** *** Nodes of the graph *)

Definition _validate_input_node (state : AgentState) : AgentState :=
  let message := strip (input_message state) in
  if is_empty message then
    with_validation_error "Empty message received" state
  else if (_max_message_length * 2 <? len message)%nat then
    with_validation_error "Message too long" state
  else with_input message (len message) state.

Inductive route : Type := Continue | Error.

Definition _should_continue_after_validation (state : AgentState) : route :=
  match validation_error state with
  | Some e => if truthy e then Error else Continue
  | None => Continue
  end.

Definition greeting_words : list string :=
  [ "hello"; "hi"; "hola"; "hey"; "good morning"; "good afternoon";
    "good evening" ].

Definition goodbye_words : list string :=
  [ "bye"; "adios"; "goodbye"; "see you"; "hasta luego"; "chau";
    "thanks bye" ].

Definition question_words : list string :=
  [ "what"; "how"; "why"; "when"; "where"; "who"; "which"; "can you";
    "do you" ].

(** The [if]/[elif] chain of the intent detection. *)
Definition detect_intent (greeting goodbye : bool) (message : string)
  : string :=
  if greeting then "greeting"
  else if goodbye then "goodbye"
  else if any_in ["price"; "cost"; "budget"; "pricing"] message
  then "pricing_inquiry"
  else if any_in ["service"; "services"; "what do you"; "what can you"]
            message
  then "service_inquiry"
  else if any_in ["schedule"; "appointment"; "meeting"; "call"] message
  then "scheduling"
  else if any_in ["email"; "send"; "enviar"; "correo"] message
  then "email_request"
  else if any_in ["calendar"; "evento"; "cita"; "recordatorio"] message
  then "calendar_request"
  else if any_in ["ai"; "artificial intelligence"; "machine learning"; "ml"]
            message
  then "ai_consultation"
  else "general_inquiry".

(** The message analysis that follows the service check. *)
Definition analyse_message (state : AgentState) : AgentState :=
  let message := strip (lower (input_message state)) in
  let greeting := any_in greeting_words message in
  let goodbye := any_in goodbye_words message in
  let question :=
    contains "?" (input_message state)
    || any_prefix question_words (lower (input_message state)) in
  let state := with_flags greeting goodbye question state in
  let intent := detect_intent greeting goodbye message in
  let conf := if mem intent ["greeting"; "goodbye"]
              then (9 # 10)%Q else (7 # 10)%Q in
  with_intent intent conf state.

(** [service_integration] says whether the agent was given an integration
    layer ([if self.service_integration:]). *)
Definition _process_message_node (E : Env) (now : Z)
    (service_integration : bool) (state : AgentState) : M AgentState :=
  if service_integration then
    let* service_result :=
      process_service_intent E now (input_message state)
        (sender_phone state) in
    if success service_result then
      let state := with_service_result service_result state in
      let state := with_response (message service_result) state in
      ret (with_intent ("service_" +:+ action service_result)
             (95 # 100)%Q state)
    else
      let state := with_service_result service_result state in
      let state := with_service_error (message service_result) state in
      ret (analyse_message state)
  else ret (analyse_message state).

Definition error_indicators : list string := [
  "[Audio transcription failed]";
  "[Audio file not found for transcription]";
  "[Audio file was a placeholder, not transcribed]";
  "[OpenAI client not available for transcription]";
  "[Audio message URL received, but live download/processing is not part of this simulation step]";
  "[Transcription resulted in empty text]";
  "[Audio transcription failed or unavailable]" ].

Definition _is_error_message (message : string) : bool :=
  mem (strip message) error_indicators.

(** [s.split('.')] *)
Fixpoint split_dot (s : string) : list string :=
  match s with
  | EmptyString => [EmptyString]
  | String c t =>
      if (code c =? 46)%nat then EmptyString :: split_dot t
      else match split_dot t with
           | x :: xs => String c x :: xs
           | [] => [String c EmptyString]
           end
  end.

(** The loop that keeps whole sentences while they fit. *)
Fixpoint keep_sentences (truncated : string) (sentences : list string)
  : string :=
  match sentences with
  | [] => truncated
  | sentence :: rest =>
      if (len (truncated +:+ sentence +:+ ".")
            <=? _max_message_length - 50)%nat
      then keep_sentences (truncated +:+ sentence +:+ ".") rest
      else truncated
  end.

Definition _post_process_response (resp : string) (state : AgentState)
  : string :=
  let resp :=
    if (_max_message_length <? len resp)%nat then
      let truncated := keep_sentences EmptyString (split_dot resp) in
      if truthy truncated
      then truncated +:+ nl +:+ nl +:+ "(Mensaje truncado por longitud)"
      else take_str (_max_message_length - 50) resp +:+ "..."
    else resp in
  let resp :=
    if truthy (sender_phone state) && negb (is_goodbye state)
       && negb (service_action_taken state)
    then if (len resp + 50 <? _max_message_length)%nat
         then resp +:+ anything_else else resp
    else resp in
  strip resp.

Definition intent_is (state : AgentState) (name : string) : bool :=
  match intent state with
  | Some i => String.eqb i name
  | None => false
  end.

Definition _generate_response_node (service_integration : bool)
    (state : AgentState) : AgentState :=
  if service_action_taken state && truthy (response state) then state
  else
    let state :=
      if intent_is state "greeting"
      then with_response _generate_greeting_response state
      else if intent_is state "goodbye"
      then with_response _generate_goodbye_response state
      else if _is_error_message (input_message state)
      then with_response _generate_error_handling_response state
      else if intent_is state "pricing_inquiry"
      then with_response _generate_pricing_response state
      else if intent_is state "service_inquiry"
      then with_response _generate_service_response state
      else if intent_is state "scheduling"
      then with_response _generate_scheduling_response state
      else if (intent_is state "email_request"
               || intent_is state "calendar_request")
              && negb service_integration
      then with_response
             (_generate_service_unavailable_response
                (default EmptyString (intent state))) state
      else state in
    if truthy (response state)
    then with_response (_post_process_response (response state) state) state
    else state.

Definition _send_response_node (E : Env) (state : AgentState) : M AgentState :=
  if truthy (response state) && truthy (sender_phone state) then
    let* sent := call (SendMessage (sender_phone state) (response state))
                      (send_message E (sender_phone state) (response state)) in
    match sent with
    | Ok ok =>
        let state := with_response_sent ok state in
        if ok then ret state
        else ret (add_processing_error "Failed to send response" state)
    | Raise e => ret (add_processing_error ("Send error: " +:+ e) state)
    end
  else ret state.

Definition _handle_error_node (E : Env) (state : AgentState) : M AgentState :=
  let error_msg :=
    match validation_error state with
    | Some e => if truthy e then e
                else "An error occurred processing your message."
    | None => "An error occurred processing your message."
    end in
  let state :=
    with_response ("I apologize, but " +:+ lower error_msg
                     +:+ " Please try again with a shorter message.") state in
  let state := with_message_type ERROR state in
  if truthy (sender_phone state) then
    let* sent := call (SendMessage (sender_phone state) (response state))
                      (send_message E (sender_phone state) (response state)) in
    match sent with
    | Ok ok => ret (with_response_sent ok state)
    | Raise _ => ret state
    end
  else ret state.

(** [_create_graph]: the nodes and the edges of the workflow.  The entry
    point is [validate_input]; its conditional edge follows
    [_should_continue_after_validation]; [None] is [END]. *)
Inductive node : Type :=
  validate_input | process_message_n | generate_response | send_response
| handle_error.

Definition entry_point : node := validate_input.

Definition conditional_edge (r : route) : node :=
  match r with
  | Continue => process_message_n
  | Error => handle_error
  end.

Definition edge (n : node) : option node :=
  match n with
  | process_message_n => Some generate_response
  | generate_response => Some send_response
  | send_response => None
  | handle_error => None
  | validate_input => None          (* left by the conditional edge *)
  end.

(** [" ".join(xs)] *)
Fixpoint join_sp (xs : list string) : string :=
  match xs with
  | [] => EmptyString
  | [x] => x
  | x :: rest => x +:+ " " +:+ join_sp rest
  end.

(** The context that [_query_knowledge_base_async] builds from the last
    three turns of the state. *)
Definition kb_context (state : AgentState) : string :=
  match conversation_history state with
  | [] => EmptyString
  | h => join_sp (map (fun rc => rc.1 +:+ ": " +:+ rc.2)
                    (slice_from (-3) h))
  end.

(** [_query_knowledge_base_async]: an exception of the knowledge base is
    logged and answered by [None]; an empty answer is [None] too. *)
Definition _query_knowledge_base_async (E : Env) (message : string)
    (state : AgentState) : M (option string) :=
  let context := kb_context state in
  let* answer := call (KbQuery message context) (kb_query E message context) in
  match answer with
  | Ok (Some r) => if truthy r then ret (Some r) else ret None
  | Ok None => ret None
  | Raise _ => ret None
  end.

(** [_update_session_async], on the global session manager. *)
Definition _update_session_async (cfg : Settings) (now : Z)
    (state : AgentState) (st : SessionManager.store)
  : AgentState * SessionManager.store :=
  let st := SessionManager.add_message cfg now (sender_phone state) USER
              (input_message state) None st in
  let st :=
    if truthy (response state)
    then SessionManager.add_message cfg now (sender_phone state) ASSISTANT
           (response state) None st
    else st in
  (with_session_updated true state, st).

(** [_create_error_response] *)
Definition _create_error_response (E : Env) (state : AgentState)
    (error_message : string) : M AgentState :=
  let state := with_response error_message state in
  let state := with_message_type ERROR state in
  let* sent := call (SendMessage (sender_phone state) error_message)
                    (send_message E (sender_phone state) error_message) in
  match sent with
  | Ok ok => ret (with_response_sent ok state)
  | Raise _ => ret state
  end.

(** The texts of the two handlers of [process_message]:
    [except asyncio.TimeoutError] comes first, [except Exception] second. *)
Definition timed_out : string := "Request timed out. Please try again.".

Definition processing_error : string :=
  "I encountered an error processing your request. Please try again.".

(** The part of [process_message] that follows the run of the graph (the
    knowledge-base step and the session update), for the [result] that the
    run produced.  An exception of the message channel leaves the [try]
    block; [timeout] says whether it is an [asyncio.TimeoutError], the one
    class that the handlers tell apart.  The handler answers with
    [_create_error_response] on [state], the object that [process_message]
    was called with, as the handler finds it, and the session is not
    updated. *)
Definition after_graph (E : Env) (cfg : Settings) (now : Z) (timeout : bool)
    (state result : AgentState) (st : SessionManager.store)
  : M (AgentState * SessionManager.store) :=
  if negb (truthy (response result))
     && negb (intent_is result "greeting" || intent_is result "goodbye")
  then
    let* kb_response :=
      _query_knowledge_base_async E (input_message result) result in
    let result :=
      match kb_response with
      | Some r => with_response r result
      | None => with_response _generate_fallback_response result
      end in
    if negb (response_sent result) && truthy (response result) then
      let* sent := call (SendMessage (sender_phone result) (response result))
                        (send_message E (sender_phone result)
                           (response result)) in
      match sent with
      | Ok ok =>
          ret (_update_session_async cfg now (with_response_sent ok result) st)
      | Raise _ =>
          let* answered :=
            _create_error_response E state
              (if timeout then timed_out else processing_error) in
          ret (answered, st)
      end
    else ret (_update_session_async cfg now result st)
  else ret (_update_session_async cfg now result st).

End Agent.

End LuniaAgent.

(** ** Sample environments and inputs *)

Module Samples.
Import LuniaAgent.

(** Every collaborator works, except that the calendar returns no id and the
    knowledge base has no answer. *)
Definition null_calendar : Env :=
  {| send_email := fun _ _ _ => Ok true;
     create_event := fun _ _ _ _ _ _ => Ok None;
     insert := fun _ _ => Ok tt;
     kb_query := fun _ _ => Ok None;
     send_message := fun _ _ => Ok true;
     strftime := fun _ => EmptyString |}.

(** The knowledge base raises. *)
Definition failing_kb : Env :=
  {| send_email := fun _ _ _ => Ok true;
     create_event := fun _ _ _ _ _ _ => Ok (Some "evt_1");
     insert := fun _ _ => Ok tt;
     kb_query := fun _ _ => Raise "index not loaded";
     send_message := fun _ _ => Ok true;
     strftime := fun _ => EmptyString |}.

Definition the_request : string := "Schedule meeting tomorrow at 3pm".
Definition the_question : string := "which services do you offer?".
Definition the_mail : string :=
  "Send email to test@example.com about meeting tomorrow".

(** Ten o'clock in the morning of day 0. *)
Definition ten_am : Z := 10 * Time.hour.

(** A turn that left the graph without a reply. *)
Definition unanswered : AgentState :=
  with_intent "general_inquiry" (7 # 10)%Q
    (new_state "What is your refund policy" "5491").

End Samples.

(** ** The remaining methods of [UserSession] ([src/models/schemas.py]) *)

(** [UserSession.get_recent_history]: [self.conversation_history[-max_turns:]] *)
Definition get_recent_history (max_turns : Z) (s : UserSession)
  : list ConversationTurn :=
  slice_from (- max_turns) (conversation_history s).

(** [UserSession.clear_history] *)
Definition clear_history (s : UserSession) : UserSession := set_history [] s.

(** ** Usage statistics ([get_service_statistics],
       [get_user_service_history]) *)

Module Statistics.

(** A row of the [service_actions] table as [select] returns it.  Only the
    column [action_type] is read: it is missing from the row, null, or a
    text. *)
Record action_row : Type := { action_type : option (option string) }.

(** [action.get("action_type", "unknown")]; a key of [action_counts] is
    [None] or a string. *)
Definition type_of (r : action_row) : option string :=
  match action_type r with
  | Some v => v
  | None => Some "unknown"
  end.

(** [action_counts.get(t, 0)] on a dictionary kept in insertion order. *)
Fixpoint count_of (t : option string) (counts : list (option string * nat))
  : nat :=
  match counts with
  | [] => 0
  | (t', n) :: rest => if bool_decide (t = t') then n else count_of t rest
  end.

(** [action_counts[t] = v] *)
Fixpoint set_count (t : option string) (v : nat)
    (counts : list (option string * nat)) : list (option string * nat) :=
  match counts with
  | [] => [(t, v)]
  | (t', n) :: rest =>
      if bool_decide (t = t') then (t', v) :: rest
      else (t', n) :: set_count t v rest
  end.

(** The loop over [actions]. *)
Definition count_actions (actions : list action_row)
  : list (option string * nat) :=
  foldl (fun counts a => set_count (type_of a) (count_of (type_of a) counts + 1)
                           counts) [] actions.

Inductive statistics : Type :=
| Stats (total_actions : nat) (action_types : list (option string * nat))
    (last_updated : option Z)
| StatsError (error : string).

(** [get_service_statistics]; [selected] is what
    [supabase_service.select("service_actions")] gives. *)
Definition get_service_statistics (now : Z)
    (selected : exc (option (list action_row))) : statistics :=
  match selected with
  | Raise e => StatsError e
  | Ok None => Stats 0 [] None
  | Ok (Some []) => Stats 0 [] None
  | Ok (Some actions) =>
      Stats (length actions) (count_actions actions) (Some now)
  end.

(** [get_user_service_history]: [history or []], and [[]] on an exception. *)
Definition get_user_service_history {A : Type}
    (selected : exc (option (list A))) : list A :=
  match selected with
  | Ok (Some history) => history
  | Ok None => []
  | Raise _ => []
  end.

(** The rows whose type is [t], and the sum of all counts. *)
Definition rows_of_type (t : option string) (actions : list action_row)
  : list action_row :=
  filter (fun a => type_of a = t) actions.

Definition sum_counts (counts : list (option string * nat)) : nat :=
  foldr (fun kv acc => kv.2 + acc) 0 counts.

End Statistics.

(** ** Shapes of results and of call logs, for the statements below *)

Module Shapes.
Import PyStr ServiceIntegration.

Definition success_tags : list string :=
  [ "email_sent"; "calendar_event_created"; "reminder_created";
    "data_query_logged" ].

Definition failure_tags : list string :=
  [ "email_error"; "calendar_error"; "reminder_error"; "data_error"; "none" ].

(** The action tag agrees with the success flag, and there is a message. *)
Definition consistent (r : ServiceResult) : bool :=
  (if success r then mem (action r) success_tags
   else mem (action r) failure_tags)
  && truthy (message r).

(** Every call of [l] goes to the mail, calendar or table collaborator. *)
Definition service_calls_only (l : list Call) : Prop :=
  Forall (fun c => is_service_call c = true) l.

Section Patterns.
Context `{U : Unicode}.

(** The pattern at position [i] of [time_patterns]. *)
Definition time_pattern (i : nat) : Re.regex :=
  (nth i time_patterns (Re.Eps, 0)).1.

(** None of the six day words that [_extract_datetime_from_message] answers
    before it looks for a time of day. *)
Definition no_day_word (message : string) : bool :=
  let l := lower message in
  negb (contains "tomorrow" l || contains "mañana" l
        || contains "next week" l || contains "próxima semana" l
        || contains "today" l || contains "hoy" l).

End Patterns.

(** [s] ends with the entries [tail]. *)
Definition ends_with {A : Type} (tail l : list A) : Prop :=
  exists front, l = front ++ tail.

End Shapes.

(** * Properties *)

(** ** The session store *)

Section SessionFacts.
Import SessionManager.

Lemma wf_empty : wf_store ∅.
Proof. intros k s Hl. by rewrite lookup_empty in Hl. Qed.

Lemma wf_delete (st : store) k : wf_store st -> wf_store (delete k st).
Proof.
  intros Hwf k' s Hl. destruct (decide (k = k')) as [->|Hne].
  - by rewrite lookup_delete_eq in Hl.
  - rewrite lookup_delete_ne in Hl by done. by apply Hwf.
Qed.

Lemma wf_insert_at (st : store) k s :
  wf_store st -> user_id s = k -> wf_store (<[k := s]> st).
Proof.
  intros Hwf <- k' s' Hl. destruct (decide (user_id s = k')) as [<-|Hne].
  - rewrite lookup_insert_eq in Hl. by inversion Hl.
  - rewrite lookup_insert_ne in Hl by done. by apply Hwf.
Qed.

Lemma wf_singleton s : wf_store ({[ user_id s := s ]} : store).
Proof. intros k s' Hl. by apply lookup_singleton_Some in Hl as [<- <-]. Qed.

(** *** Reading *)

Lemma get_session_live cfg now uid (st : store) s :
  st !! uid = Some s -> _is_session_expired cfg now s = false ->
  get_session cfg now uid st = (Some s, st).
Proof. intros Hl Hexp. unfold get_session. by rewrite Hl, Hexp. Qed.

Lemma get_session_expired cfg now uid (st : store) s :
  st !! uid = Some s -> _is_session_expired cfg now s = true ->
  get_session cfg now uid st = (None, delete uid st).
Proof. intros Hl Hexp. unfold get_session. by rewrite Hl, Hexp. Qed.

(** *** The sweep *)

Lemma foldl_delete_lookup (l : list string) (st : store) (k : string) :
  foldl (fun acc uid => snd (delete_session uid acc)) st l !! k
  = if decide (k ∈ l) then None else st !! k.
Proof.
  revert st. induction l as [|u l IH]; intros st; cbn [foldl].
  - destruct (decide (k ∈ [])) as [Hin|]; [|done]. by apply elem_of_nil in Hin.
  - rewrite IH. unfold delete_session; cbn [snd].
    destruct (decide (k = u)) as [->|Hne].
    + rewrite lookup_delete_eq.
      destruct (decide (u ∈ l)), (decide (u ∈ u :: l)) as [|Hn]; try done;
        exfalso; apply Hn; apply elem_of_cons; by left.
    + rewrite lookup_delete_ne by done.
      destruct (decide (k ∈ l)) as [Hl|Hl], (decide (k ∈ u :: l)) as [Hc|Hc];
        try done.
      * exfalso. apply Hc. apply elem_of_cons. by right.
      * exfalso. apply elem_of_cons in Hc as [?|?]; done.
Qed.

Lemma cleanup_lookup cfg now (st : store) k :
  cleanup_expired_sessions cfg now st !! k
  = match st !! k with
    | Some s => if _is_session_expired cfg now s then None else Some s
    | None => None
    end.
Proof.
  unfold cleanup_expired_sessions. rewrite foldl_delete_lookup.
  destruct (decide (k ∈ _)) as [Hin|Hin].
  - apply list_elem_of_fmap in Hin as [[k' s] [-> Hin]].
    apply list_elem_of_filter in Hin as [Hexp Hin].
    apply elem_of_map_to_list in Hin. simpl in *. by rewrite Hin, Hexp.
  - destruct (st !! k) as [s|] eqn:Hk; [|done].
    destruct (_is_session_expired cfg now s) eqn:Hexp; [|done].
    exfalso. apply Hin. apply list_elem_of_fmap. exists (k, s). split; [done|].
    apply list_elem_of_filter. split; [done|]. by apply elem_of_map_to_list.
Qed.

(** *** Appending *)

Lemma limit_history_user_id cfg s : user_id (limit_history cfg s) = user_id s.
Proof. unfold limit_history. by case_match. Qed.

Lemma add_message_live cfg now uid r c md (st : store) s :
  wf_store st -> st !! uid = Some s -> _is_session_expired cfg now s = false ->
  add_message cfg now uid r c md st
  = <[uid := set_last_activity now
               (limit_history cfg (add_turn now r c md s))]> st.
Proof.
  intros Hwf Hl Hexp. unfold add_message, get_session. rewrite Hl, Hexp.
  cbn -[add_turn]. fold (limit_history cfg (add_turn now r c md s)).
  replace (user_id (limit_history cfg (add_turn now r c md s))) with uid;
    [done|].
  rewrite limit_history_user_id. simpl. symmetry. by apply Hwf.
Qed.

Lemma add_message_new cfg now uid r c md (st : store) :
  (st !! uid = None
   \/ exists s, st !! uid = Some s /\ _is_session_expired cfg now s = true) ->
  add_message cfg now uid r c md st
  = <[uid := set_last_activity now
               (limit_history cfg
                  (add_turn now r c md (fresh_session now uid)))]>
      (delete uid st).
Proof.
  intros H. unfold add_message, get_session.
  assert (Hk : user_id (limit_history cfg
                          (add_turn now r c md (fresh_session now uid))) = uid)
    by (by rewrite limit_history_user_id).
  destruct H as [Hl | (s & Hl & Hexp)]; [rewrite Hl | rewrite Hl, Hexp];
    cbn -[add_turn]; fold (fresh_session now uid);
    change (set_last_activity now (fresh_session now uid))
      with (fresh_session now uid);
    fold (limit_history cfg (add_turn now r c md (fresh_session now uid)));
    rewrite Hk, insert_insert_eq; by rewrite insert_delete_eq.
Qed.

Lemma add_message_stored cfg now uid r c md (st : store) :
  wf_store st ->
  exists s0,
    add_message cfg now uid r c md st !! uid
    = Some (set_last_activity now
              (limit_history cfg (add_turn now r c md s0))).
Proof.
  intros Hwf. destruct (st !! uid) as [s|] eqn:Hl.
  - destruct (_is_session_expired cfg now s) eqn:Hexp.
    + exists (fresh_session now uid). rewrite add_message_new by eauto.
      apply lookup_insert_eq.
    + exists s. rewrite (add_message_live _ _ _ _ _ _ _ s) by done.
      apply lookup_insert_eq.
  - exists (fresh_session now uid). rewrite add_message_new by eauto.
    apply lookup_insert_eq.
Qed.

Lemma most_recent_all {A} (n : nat) (l : list A) :
  length l <= n -> most_recent n l = l.
Proof.
  intros H. unfold most_recent. by replace (length l - n) with 0 by lia.
Qed.

Lemma most_recent_length {A} (n : nat) (l : list A) :
  length (most_recent n l) = length l `min` n.
Proof. unfold most_recent. rewrite length_drop. lia. Qed.

Lemma most_recent_snoc {A} (n : nat) (l : list A) x :
  1 <= n -> most_recent n (most_recent n l ++ [x]) = most_recent n (l ++ [x]).
Proof.
  intros Hn. destruct (decide (length l < n)) as [Hlt|Hge].
  - by rewrite (most_recent_all n l) by lia.
  - unfold most_recent at 1 3. rewrite !length_app, most_recent_length. simpl.
    replace (length l `min` n + 1 - n) with 1 by lia.
    unfold most_recent. rewrite drop_app_le by (rewrite length_drop; lia).
    rewrite drop_drop. rewrite drop_app_le by lia. f_equal. f_equal. lia.
Qed.

Lemma limit_history_spec cfg (s : UserSession) :
  (1 <= MAX_CONVERSATION_HISTORY cfg)%Z ->
  conversation_history (limit_history cfg s)
  = most_recent (Z.to_nat (MAX_CONVERSATION_HISTORY cfg))
      (conversation_history s).
Proof.
  intros HM. unfold limit_history.
  destruct (Z.ltb_spec (MAX_CONVERSATION_HISTORY cfg)
              (Z.of_nat (length (conversation_history s)))) as [Hlt|Hge].
  - simpl. unfold slice_from, most_recent.
    replace (- MAX_CONVERSATION_HISTORY cfg <? 0)%Z with true
      by (symmetry; apply Z.ltb_lt; lia).
    f_equal. lia.
  - symmetry. apply most_recent_all. lia.
Qed.

(** A run of appends on a live session: the history is the tail of
    everything that was ever appended. *)
Lemma add_messages_fifo cfg uid (l : list append) :
  (1 <= MAX_CONVERSATION_HISTORY cfg)%Z ->
  forall (st : store) s (H : list ConversationTurn),
    wf_store st -> st !! uid = Some s ->
    conversation_history s
      = most_recent (Z.to_nat (MAX_CONVERSATION_HISTORY cfg)) H ->
    within_timeout cfg (last_activity s) l ->
    exists s', add_messages cfg uid l st !! uid = Some s'
      /\ conversation_history s'
         = most_recent (Z.to_nat (MAX_CONVERSATION_HISTORY cfg))
             (H ++ map turn_of l).
Proof.
  intros HM. induction l as [|a l IH]; intros st s H Hwf Hl Hh Hlive.
  - exists s. by rewrite app_nil_r.
  - destruct Hlive as [Hgap Hlive]. cbn [add_messages foldl].
    assert (Hexp : _is_session_expired cfg (a_now a) s = false).
    { unfold _is_session_expired. apply Z.ltb_ge. lia. }
    rewrite (add_message_live _ _ _ _ _ _ _ s) by done.
    set (s1 := set_last_activity _ _).
    destruct (IH (<[uid:=s1]> st) s1 (H ++ [turn_of a])) as (s' & Hs' & Hh').
    + apply wf_insert_at; [done|]. subst s1. simpl.
      rewrite limit_history_user_id. simpl. by apply Hwf.
    + by rewrite lookup_insert_eq.
    + subst s1. cbn [set_last_activity conversation_history].
      rewrite limit_history_spec by done. simpl. rewrite Hh.
      apply most_recent_snoc. lia.
    + done.
    + exists s'. split; [done|]. by rewrite Hh', <- app_assoc.
Qed.

(** The limit test of [tests/unit/test_session_manager.py]: five appends
    under a limit of three keep the last three. *)
Example conversation_history_limit :
  let cfg := {| SESSION_TIMEOUT_MINUTES := 30;
                MAX_CONVERSATION_HISTORY := 3 |} in
  let say c := {| a_now := 0; a_role := USER; a_content := c;
                  a_metadata := None |} in
  option_map (fun s => map content (conversation_history s))
    (add_messages cfg "test_user_limit"
       (map say ["Message 0"; "Message 1"; "Message 2"; "Message 3";
                 "Message 4"]) ∅ !! "test_user_limit")
  = Some ["Message 2"; "Message 3"; "Message 4"].
Proof. vm_compute. reflexivity. Qed.

(** C3, as stated, fails: a read does not refresh [last_activity].  The
    session of user "u", last active at time 0, is read at time 5, well
    within the timeout, and is still stamped 0 afterwards. *)
Lemma get_session_no_refresh_cex :
  ~ (forall cfg now uid (st : store) s,
       st !! uid = Some s -> _is_session_expired cfg now s = false ->
       exists s', (get_session cfg now uid st).2 !! uid = Some s'
                  /\ last_activity s' = now).
Proof.
  intros H.
  destruct (H Config 5%Z "u" {[ "u" := idle ]} idle) as (s' & Hs' & Hla).
  - apply lookup_singleton_eq.
  - reflexivity.
  - rewrite (get_session_live _ _ _ _ idle) in Hs'
      by (apply lookup_singleton_eq || reflexivity).
    simpl in Hs'. rewrite lookup_singleton_eq in Hs'.
    inversion Hs'; subst s'. discriminate Hla.
Qed.

(** C3, amended: every write of a session refreshes [last_activity] to the
    current time ([save_session] stores the session stamped [now], and after
    [add_message] the stored session is stamped [now]), whereas [get_session]
    on an existing, unexpired session returns it as it is stored and leaves
    the store, hence [last_activity], unchanged. *)
Theorem last_activity_refreshed_by_writes cfg now uid (st : store) :
  wf_store st ->
  (forall s, st !! uid = Some s -> _is_session_expired cfg now s = false ->
     get_session cfg now uid st = (Some s, st))
  /\ (forall s, (save_session now s st).2 !! user_id s
                = Some (set_last_activity now s))
  /\ (forall r c md,
        exists s, add_message cfg now uid r c md st !! uid = Some s
                  /\ last_activity s = now).
Proof.
  intros Hwf. split; [|split].
  - intros s. apply get_session_live.
  - intros s. unfold save_session. simpl. apply lookup_insert_eq.
  - intros r c md.
    destruct (add_message_stored cfg now uid r c md st Hwf) as (s0 & ->).
    eexists. split; reflexivity.
Qed.

Lemma last_activity_refreshed_by_writes_witness :
  get_session Config 5 "u" {[ "u" := idle ]} = (Some idle, {[ "u" := idle ]})
  /\ (exists s,
        add_message Config 5 "u" USER "hi" None {[ "u" := idle ]} !! "u"
        = Some s /\ last_activity s = 5%Z).
Proof.
  destruct (last_activity_refreshed_by_writes Config 5 "u" {[ "u" := idle ]}
              (wf_singleton idle)) as (Hget & _ & Hadd).
  split.
  - apply Hget; [apply lookup_singleton_eq | reflexivity].
  - apply Hadd.
Defined.

(** C5, as stated, fails twice.  With a configured maximum of 0 the slice
    [history[-0:]] is the whole list, so one append leaves a history of
    length 1.  And with the default settings an append that comes 31
    minutes after the previous one finds the session expired and starts a
    new one: the history holds the last entry only, not the last two. *)
Lemma add_message_history_cex :
  (exists s,
     add_messages {| SESSION_TIMEOUT_MINUTES := 30;
                     MAX_CONVERSATION_HISTORY := 0 |} "u" [first_append] ∅
       !! "u" = Some s
     /\ ~ (Z.of_nat (length (conversation_history s)) <= 0)%Z)
  /\ (exists s,
        add_messages Config "u" [first_append; late_append] ∅ !! "u" = Some s
        /\ conversation_history s = [turn_of late_append]
        /\ conversation_history s
           <> most_recent 10 (map turn_of [first_append; late_append])).
Proof.
  split; eexists; (split; [vm_compute; reflexivity|]).
  - vm_compute. intros H. apply H. reflexivity.
  - split; [vm_compute; reflexivity|]. vm_compute. discriminate.
Qed.

(** C5, amended: when the configured maximum is at least 1, the history
    stored by every [add_message] call has at most that many entries; and
    for a user without a session, after any run of appends each of which
    comes within the session timeout of the previous one, the history is
    exactly the most recent [MAX_CONVERSATION_HISTORY] entries appended, in
    order. *)
Theorem add_message_keeps_most_recent cfg uid (st : store) :
  (1 <= MAX_CONVERSATION_HISTORY cfg)%Z -> wf_store st ->
  (forall now r c md,
     exists s, add_message cfg now uid r c md st !! uid = Some s
       /\ (Z.of_nat (length (conversation_history s))
           <= MAX_CONVERSATION_HISTORY cfg)%Z)
  /\ (forall a l,
        st !! uid = None -> within_timeout cfg (a_now a) l ->
        exists s, add_messages cfg uid (a :: l) st !! uid = Some s
          /\ conversation_history s
             = most_recent (Z.to_nat (MAX_CONVERSATION_HISTORY cfg))
                 (map turn_of (a :: l))).
Proof.
  intros HM Hwf. split.
  - intros now r c md.
    destruct (add_message_stored cfg now uid r c md st Hwf) as (s0 & ->).
    eexists. split; [done|]. cbn [set_last_activity conversation_history].
    rewrite limit_history_spec, most_recent_length by done. lia.
  - intros a l Hnone Hlive. cbn [add_messages foldl].
    rewrite add_message_new by auto.
    set (s1 := set_last_activity _ _).
    destruct (add_messages_fifo cfg uid l HM (<[uid:=s1]> (delete uid st)) s1
                [turn_of a]) as (s' & Hs' & Hh').
    + apply wf_insert_at; [by apply wf_delete|].
      subst s1. simpl. by rewrite limit_history_user_id.
    + by rewrite lookup_insert_eq.
    + subst s1. cbn [set_last_activity conversation_history].
      by rewrite limit_history_spec.
    + done.
    + by exists s'.
Qed.

Lemma add_message_keeps_most_recent_witness :
  let cfg := {| SESSION_TIMEOUT_MINUTES := 30;
                MAX_CONVERSATION_HISTORY := 3 |} in
  let say c := {| a_now := 0; a_role := USER; a_content := c;
                  a_metadata := None |} in
  exists s,
    add_messages cfg "u" (map say ["m0"; "m1"; "m2"; "m3"; "m4"]) ∅ !! "u"
    = Some s
    /\ map content (conversation_history s) = ["m2"; "m3"; "m4"]
    /\ conversation_history s
       = most_recent 3 (map turn_of (map say ["m0"; "m1"; "m2"; "m3"; "m4"])).
Proof.
  intros cfg say.
  destruct (add_message_keeps_most_recent cfg "u" ∅) as [_ Hrun].
  - vm_compute. discriminate.
  - apply wf_empty.
  - destruct (Hrun (say "m0") (map say ["m1"; "m2"; "m3"; "m4"]))
      as (s & Hs & Hhist).
    + apply lookup_empty.
    + simpl. repeat split; vm_compute; discriminate.
    + exists s. split; [exact Hs|]. split; [|exact Hhist].
      rewrite Hhist. reflexivity.
Defined.

(** C6: a session whose [last_activity] is older than the timeout is absent
    for [get_session] (it returns [None] and drops the entry), and the sweep
    removes exactly the stale sessions: it drops this one, and any entry of
    the store survives, unchanged, if and only if it is not stale. *)
Theorem expired_session_absent_and_swept cfg now uid (st : store) s :
  st !! uid = Some s ->
  (Time.minutes (SESSION_TIMEOUT_MINUTES cfg) < now - last_activity s)%Z ->
  (get_session cfg now uid st).1 = None
  /\ (get_session cfg now uid st).2 = delete uid st
  /\ cleanup_expired_sessions cfg now st !! uid = None
  /\ (forall k,
        cleanup_expired_sessions cfg now st !! k
        = match st !! k with
          | Some s' =>
              if (Time.minutes (SESSION_TIMEOUT_MINUTES cfg)
                    <? now - last_activity s')%Z
              then None else Some s'
          | None => None
          end).
Proof.
  intros Hl Hold.
  assert (Hexp : _is_session_expired cfg now s = true).
  { unfold _is_session_expired. by apply Z.ltb_lt. }
  rewrite (get_session_expired _ _ _ _ s) by done.
  split; [done|]. split; [done|]. split.
  - rewrite cleanup_lookup, Hl. by rewrite Hexp.
  - intros k. apply cleanup_lookup.
Qed.

Lemma expired_session_absent_and_swept_witness :
  (get_session Config (Time.minutes 31) "u" {[ "u" := idle ]}).1 = None
  /\ cleanup_expired_sessions Config (Time.minutes 31) {[ "u" := idle ]} !! "u"
     = None.
Proof.
  destruct (expired_session_absent_and_swept Config (Time.minutes 31) "u"
              {[ "u" := idle ]} idle) as (H1 & _ & H3 & _).
  - apply lookup_singleton_eq.
  - vm_compute. reflexivity.
  - split; [exact H1 | exact H3].
Defined.

End SessionFacts.

(** ** The service-action matcher *)

Section ServiceFacts.
Import PyStr Re ServiceIntegration Samples.

Context `{U : Unicode}.

Lemma calls_of_app p (l1 l2 : list Call) :
  calls_of p (l1 ++ l2) = calls_of p l1 ++ calls_of p l2.
Proof. apply filter_app. Qed.

(** Cases of [tests/unit/test_agent_service_integration.py]. *)
Example no_intent_detected E now log :
  process_service_intent E now "Hello, how are you?" "user123" log
  = (no_action, log).
Proof. vm_compute. reflexivity. Qed.

Example extract_email_body_of_request :
  _extract_email_body
    "Send email to test@example.com about the meeting tomorrow"
    "test@example.com"
  = "about the meeting tomorrow".
Proof. vm_compute. reflexivity. Qed.

(** Without "tomorrow" the time of day is read: the sibling path that the
    test [test_extract_datetime_from_message] exercises. *)
Example at_3pm_is_hour_15 :
  option_map Time.hour_of
    (match _extract_datetime_from_message ten_am "Schedule meeting at 3pm" with
     | Ok t => t
     | Raise _ => None
     end) = Some 15%Z.
Proof. vm_compute. reflexivity. Qed.

(** C4: when an email-trigger pattern matches the lower-cased text, the
    matcher sends exactly one email if the text holds an address, to the
    first address found in it; without an address it answers [email_error],
    unsuccessful, and calls no collaborator at all. *)
Theorem email_intent_sends_once E now message user_id log :
  first_match false email_patterns (lower message) <> None ->
  let out := process_service_intent E now message user_id log in
  match search false address message with
  | Some m =>
      exists subject body,
        calls_of is_send_email out.2
        = calls_of is_send_email log ++ [SendEmail (m_text m) subject body]
  | None =>
      action out.1 = "email_error" /\ success out.1 = false /\ out.2 = log
  end.
Proof.
  intros Hmatch out. subst out.
  unfold process_service_intent, _check_email_intent, bind.
  destruct (first_match false email_patterns (lower message)) as [m0|];
    [clear Hmatch | done].
  destruct (search false address message) as [m|]; [|done].
  set (subject := match _extract_email_subject message with
                  | Some s => _ | None => _ end).
  set (body := _extract_email_body message (m_text m)).
  exists subject, body. unfold call.
  destruct (send_email E (m_text m) subject body) as [[|]|e]; simpl;
    rewrite ?calls_of_app; simpl; by rewrite ?app_nil_r.
Qed.

Lemma tomorrow_shadows_time_of_day now message :
  contains "tomorrow" (lower message) = true ->
  _extract_datetime_from_message now message
  = Ok (Some (now + Time.days 1)%Z).
Proof. intros H. unfold _extract_datetime_from_message. by rewrite H. Qed.

Lemma hour_of_next_day now :
  Time.hour_of (now + Time.days 1) = Time.hour_of now.
Proof.
  unfold Time.hour_of, Time.days, Time.day.
  replace (now + 1 * (24 * Time.hour))%Z with (now + 24 * Time.hour)%Z by lia.
  rewrite Z.div_add by (vm_compute; discriminate).
  rewrite <- (Z.mul_1_l 24) at 1. by rewrite Z.mod_add.
Qed.

(** C1, on the code: for "Schedule meeting tomorrow at 3pm" the word
    "tomorrow" is answered before the time of day is looked at, so the start
    is [now] plus one day and its hour is the hour of [now], not 15.  The
    other parts of the claim hold: the end is the start plus one hour, the
    calendar is called once, and a calendar that returns no id gives
    [calendar_error]. *)
Theorem schedule_tomorrow_at_3pm E now log :
  create_event E "meeting tomorrow at" "" (now + Time.days 1)
    (now + Time.days 1 + Time.hours 1) None None = Ok None ->
  let out :=
    _check_calendar_intent E now the_request (lower the_request) "u" log in
  exists ev,
    _extract_event_details now the_request = Some ev
    /\ ev_start_datetime ev = (now + Time.days 1)%Z
    /\ Time.hour_of (ev_start_datetime ev) = Time.hour_of now
    /\ ev_end_datetime ev = (ev_start_datetime ev + Time.hours 1)%Z
    /\ count_calls is_create_event out.2
       = S (count_calls is_create_event log)
    /\ option_map action out.1 = Some "calendar_error".
Proof.
  intros Hnull out.
  assert (Hev : _extract_event_details now the_request
                = Some {| ev_summary := "meeting tomorrow at";
                          ev_start_datetime := now + Time.days 1;
                          ev_end_datetime := now + Time.days 1 + Time.hours 1;
                          ev_attendees := None |}).
  { unfold _extract_event_details.
    rewrite tomorrow_shadows_time_of_day by (vm_compute; reflexivity).
    replace (search true summary_pattern the_request)
      with (Some (MkMatch "Schedule meeting tomorrow at "
                    [(2, "meeting tomorrow at "); (1, "Schedule")] "3pm"))
      by (vm_compute; reflexivity).
    replace (findall false address the_request) with (@nil string)
      by (vm_compute; reflexivity).
    reflexivity. }
  eexists. split; [exact Hev|]. cbn [ev_start_datetime ev_end_datetime].
  split; [done|]. split; [apply hour_of_next_day|]. split; [done|].
  subst out. unfold _check_calendar_intent.
  replace (first_match false calendar_patterns (lower the_request))
    with (Some (MkMatch "schedule meeting tomorrow at 3pm"
                  [(1, "tomorrow at 3pm")] ""))
    by (vm_compute; reflexivity).
  rewrite Hev. unfold bind, call.
  cbn [ev_summary ev_start_datetime ev_end_datetime ev_attendees].
  rewrite Hnull. unfold truthy_id, ret. cbn [fst snd].
  unfold count_calls. rewrite calls_of_app, length_app.
  split; [simpl; lia | done].
Qed.

End ServiceFacts.

(** Instances of the theorems above, on ASCII text. *)

Section ServiceFactsWitnesses.
Import PyStr Re ServiceIntegration Samples.
#[local] Existing Instance plain.

Lemma email_intent_sends_once_witness :
  exists subject body,
    calls_of is_send_email
      (process_service_intent null_calendar 0 the_mail "u" []).2
    = [] ++ [SendEmail "test@example.com" subject body].
Proof.
  assert (H : first_match false email_patterns (lower the_mail) <> None)
    by (vm_compute; discriminate).
  exact (email_intent_sends_once null_calendar 0 the_mail "u" [] H).
Defined.

Lemma schedule_tomorrow_at_3pm_witness :
  exists ev,
    _extract_event_details ten_am the_request = Some ev
    /\ Time.hour_of (ev_start_datetime ev) = 10%Z
    /\ ev_end_datetime ev = (ev_start_datetime ev + Time.hours 1)%Z
    /\ count_calls is_create_event
         (_check_calendar_intent null_calendar ten_am the_request
            (lower the_request) "u" []).2 = 1
    /\ option_map action
         (_check_calendar_intent null_calendar ten_am the_request
            (lower the_request) "u" []).1
       = Some "calendar_error".
Proof.
  destruct (schedule_tomorrow_at_3pm null_calendar ten_am [] eq_refl)
    as (ev & H1 & H2 & H3 & H4 & H5 & H6).
  exists ev. split; [exact H1|]. split; [rewrite H3; reflexivity|].
  split; [exact H4|]. split; [exact H5 | exact H6].
Defined.

End ServiceFactsWitnesses.

(** ** Strings *)

Section StringFacts.
Import PyStr.

Lemma prefix_cons c k x t :
  String.prefix (String c k) (String x t) = true
  <-> c = x /\ String.prefix k t = true.
Proof.
  simpl. destruct (ascii_dec c x) as [->|Hne]; split; (tauto || discriminate).
Qed.

Lemma prefix_empty_l t : String.prefix EmptyString t = true.
Proof. by destruct t. Qed.

Lemma prefix_empty_r kw :
  String.prefix kw EmptyString = true -> kw = EmptyString.
Proof. by destruct kw. Qed.

Lemma contains_empty_r kw : contains kw EmptyString = true -> kw = EmptyString.
Proof. simpl. rewrite orb_false_r. apply prefix_empty_r. Qed.

Lemma contains_cons kw x t :
  contains kw (String x t) = String.prefix kw (String x t) || contains kw t.
Proof. reflexivity. Qed.

Lemma contains_prefix kw s :
  String.prefix kw s = true -> contains kw s = true.
Proof. intros H. destruct s; cbn [contains]; by rewrite H. Qed.

Lemma append_cons c s t : String c s +:+ t = String c (s +:+ t).
Proof. reflexivity. Qed.

Lemma append_empty_l t : EmptyString +:+ t = t.
Proof. reflexivity. Qed.

Lemma prefix_split e : forall s,
  String.prefix e s = true -> s = e +:+ bdrop (blen e) s.
Proof.
  induction e as [|c e IH]; intros s Hp; [by destruct s|].
  destruct s as [|x t]; [done|].
  apply prefix_cons in Hp as [<- Hp]. rewrite append_cons. cbn [blen bdrop].
  f_equal. by apply IH.
Qed.

Lemma prefix_trans a : forall b c,
  String.prefix a b = true -> String.prefix b c = true ->
  String.prefix a c = true.
Proof.
  induction a as [|x a IH]; intros b c Hab Hbc; [apply prefix_empty_l|].
  destruct b as [|y b]; [done|]. destruct c as [|z c]; [done|].
  apply prefix_cons in Hab as [-> Hab]. apply prefix_cons in Hbc as [-> Hbc].
  apply prefix_cons. split; [done|]. by apply (IH b).
Qed.

(** *** Whitespace characters have no solid byte *)

Lemma space_encodings_soft e :
  In e space_encodings -> e <> EmptyString /\ any_byte is_solid e = false.
Proof.
  intros Hin.
  assert (H : forallb (fun e => negb (is_empty e) && negb (any_byte is_solid e))
                space_encodings = true) by (vm_compute; reflexivity).
  rewrite forallb_forall in H. specialize (H e Hin).
  apply andb_prop in H as [Hne Hsoft]. apply negb_true_iff in Hsoft.
  by destruct e.
Qed.

Lemma any_byte_prefix p kw : forall s,
  String.prefix kw s = true -> any_byte p kw = true -> any_byte p s = true.
Proof.
  induction kw as [|c k IH]; intros s Hp Hk; [done|].
  destruct s as [|x t]; [done|].
  apply prefix_cons in Hp as [<- Hp]. cbn [any_byte] in *.
  apply orb_true_iff in Hk as [->|Hk]; [done|].
  rewrite (IH t) by done. apply orb_true_r.
Qed.

Lemma any_byte_contains p kw : forall s,
  contains kw s = true -> any_byte p kw = true -> any_byte p s = true.
Proof.
  induction s as [|x t IH]; intros Hc Hk.
  - apply contains_empty_r in Hc. by subst kw.
  - rewrite contains_cons in Hc. apply orb_true_iff in Hc as [Hp|Ht].
    + by apply (any_byte_prefix p kw).
    + cbn [any_byte]. rewrite IH by done. apply orb_true_r.
Qed.

Lemma starts_solid kw : starts_nonspace kw = true -> any_byte is_solid kw = true.
Proof. destruct kw as [|c k]; [done|]. cbn. by intros ->. Qed.

Lemma ends_solid kw : ends_nonspace kw = true -> any_byte is_solid kw = true.
Proof.
  induction kw as [|c k IH]; [done|]. cbn [ends_nonspace any_byte].
  destruct k as [|c' k']; [by intros ->|].
  intros H. rewrite IH by done. apply orb_true_r.
Qed.

Lemma is_space_char_soft s :
  is_space_char s = true -> any_byte is_solid s = false.
Proof.
  unfold is_space_char. intros H. apply existsb_exists in H as (e & Hin & He).
  apply String.eqb_eq in He as ->. by apply space_encodings_soft.
Qed.

Lemma space_prefix_split s t :
  space_prefix s = Some t ->
  exists e, s = e +:+ t /\ e <> EmptyString /\ any_byte is_solid e = false.
Proof.
  unfold space_prefix.
  destruct (find _ space_encodings) as [e|] eqn:Hfind; [|done].
  intros [= <-]. apply find_some in Hfind as [Hin Hp].
  exists e. split; [by apply prefix_split|]. by apply space_encodings_soft.
Qed.

Lemma space_prefix_mono b a t :
  space_prefix b = Some t -> String.prefix b a = true ->
  space_prefix a <> None.
Proof.
  unfold space_prefix.
  destruct (find _ space_encodings) as [e|] eqn:Hfind; [|done].
  intros _ Hba. apply find_some in Hfind as [Hin Hp].
  destruct (find (fun e => String.prefix e a) space_encodings) eqn:Ha; [done|].
  pose proof (find_none _ _ Ha e Hin) as Hno. cbn beta in Hno.
  by rewrite (prefix_trans e b a) in Hno.
Qed.

(** *** Substring tests survive [strip] *)

Lemma contains_skip kw e : forall t,
  starts_nonspace kw = true -> any_byte is_solid e = false ->
  contains kw (e +:+ t) = true -> contains kw t = true.
Proof.
  intros t Hs. induction e as [|b e IH]; intros He Hc; [done|].
  cbn [any_byte] in He. apply orb_false_iff in He as [Hb He].
  rewrite append_cons, contains_cons in Hc.
  apply orb_true_iff in Hc as [Hp|Hc]; [|by apply IH].
  destruct kw as [|c k]; [done|]. apply prefix_cons in Hp as [-> _].
  cbn in Hs. congruence.
Qed.

Lemma contains_lstrip_fuel kw n : forall s,
  starts_nonspace kw = true -> contains kw s = true ->
  contains kw (lstrip_fuel n s) = true.
Proof.
  induction n as [|n IH]; intros s Hs Hc; [done|]. cbn [lstrip_fuel].
  destruct (space_prefix s) as [t|] eqn:Hsp; [|done].
  apply space_prefix_split in Hsp as (e & -> & _ & He).
  apply IH; [done|]. by apply (contains_skip kw e).
Qed.

Lemma contains_lstrip kw s :
  starts_nonspace kw = true -> contains kw s = true ->
  contains kw (lstrip s) = true.
Proof. apply contains_lstrip_fuel. Qed.

Lemma prefix_rstrip s : forall kw,
  ends_nonspace kw = true -> String.prefix kw s = true ->
  String.prefix kw (rstrip s) = true.
Proof.
  induction s as [|x t IH]; intros kw Hend Hp.
  - apply prefix_empty_r in Hp. by subst kw.
  - destruct kw as [|c k]; [done|].
    apply prefix_cons in Hp as [<- Hk]. cbn [rstrip].
    assert (Hkeep : String.prefix (String c k) (String c (rstrip t)) = true).
    { apply prefix_cons. split; [done|].
      destruct k as [|c' k']; [apply prefix_empty_l|]. by apply IH. }
    destruct (is_space_char (String c (rstrip t))) eqn:Hsp; [|done].
    apply is_space_char_soft in Hsp.
    rewrite (any_byte_prefix is_solid (String c k)) in Hsp;
      [done | done | by apply ends_solid].
Qed.

Lemma contains_rstrip kw : forall s,
  ends_nonspace kw = true -> contains kw s = true ->
  contains kw (rstrip s) = true.
Proof.
  intros s Hend. induction s as [|x t IH]; intros Hc.
  - apply contains_empty_r in Hc. by subst kw.
  - rewrite contains_cons in Hc. apply orb_true_iff in Hc as [Hp|Ht].
    + apply contains_prefix. by apply prefix_rstrip.
    + specialize (IH Ht). cbn [rstrip].
      assert (Hkeep : contains kw (String x (rstrip t)) = true)
        by (rewrite contains_cons, IH; apply orb_true_r).
      destruct (is_space_char (String x (rstrip t))) eqn:Hsp; [|done].
      apply is_space_char_soft in Hsp.
      rewrite (any_byte_contains is_solid kw) in Hsp;
        [done | done | by apply ends_solid].
Qed.

Lemma contains_strip kw s :
  starts_nonspace kw = true -> ends_nonspace kw = true ->
  contains kw s = true -> contains kw (strip s) = true.
Proof.
  intros Hs He Hc. unfold strip. apply contains_rstrip; [done|].
  by apply contains_lstrip.
Qed.

Lemma any_in_intro words kw s :
  In kw words -> contains kw s = true -> any_in words s = true.
Proof. intros Hin Hc. apply existsb_exists. eauto. Qed.

(** *** [strip] is idempotent *)

Lemma blen_append a b : blen (a +:+ b) = blen a + blen b.
Proof.
  unfold blen. induction a as [|c a IH]; [done|].
  rewrite append_cons. cbn [String.length]. by rewrite IH.
Qed.

Lemma lstrip_fuel_done n : forall s,
  blen s <= n -> space_prefix (lstrip_fuel n s) = None.
Proof.
  induction n as [|n IH]; intros s Hlen.
  - destruct s; [reflexivity | cbn in Hlen; lia].
  - cbn [lstrip_fuel]. destruct (space_prefix s) as [t|] eqn:Hsp; [|done].
    apply IH. apply space_prefix_split in Hsp as (e & -> & Hne & _).
    rewrite blen_append in Hlen. destruct e; [done|]. cbn in Hlen. lia.
Qed.

Lemma lstrip_fixed s : space_prefix s = None -> lstrip s = s.
Proof.
  intros H. unfold lstrip. destruct (blen s); [done|].
  cbn [lstrip_fuel]. by rewrite H.
Qed.

Lemma rstrip_prefix s : String.prefix (rstrip s) s = true.
Proof.
  induction s as [|c t IH]; [done|]. cbn [rstrip].
  destruct (is_space_char (String c (rstrip t))); [done|].
  by apply prefix_cons.
Qed.

Lemma rstrip_rstrip s : rstrip (rstrip s) = rstrip s.
Proof.
  induction s as [|c s IH]; [done|]. cbn [rstrip].
  destruct (is_space_char (String c (rstrip s))) eqn:Hc; [done|].
  cbn [rstrip]. by rewrite IH, Hc.
Qed.

Lemma strip_strip s : strip (strip s) = strip s.
Proof.
  unfold strip.
  assert (Ha : space_prefix (lstrip s) = None)
    by (by apply lstrip_fuel_done).
  assert (Hb : space_prefix (rstrip (lstrip s)) = None).
  { destruct (space_prefix (rstrip (lstrip s))) as [t|] eqn:Hsp; [|done].
    destruct (space_prefix_mono _ (lstrip s) t Hsp); [|done].
    apply rstrip_prefix. }
  rewrite (lstrip_fixed _ Hb). apply rstrip_rstrip.
Qed.

(** *** Lengths *)

Lemma len_append a b : len (a +:+ b) = len a + len b.
Proof.
  induction a as [|c a IH]; [done|].
  rewrite append_cons. cbn [len]. rewrite IH. lia.
Qed.

Lemma len_lstrip_fuel n : forall s, len (lstrip_fuel n s) <= len s.
Proof.
  induction n as [|n IH]; intros s; [done|]. cbn [lstrip_fuel].
  destruct (space_prefix s) as [t|] eqn:Hsp; [|done].
  apply space_prefix_split in Hsp as (e & -> & _).
  rewrite len_append. specialize (IH t). lia.
Qed.

Lemma len_rstrip s : len (rstrip s) <= len s.
Proof.
  induction s as [|c s IH]; [done|]. cbn [rstrip].
  destruct (is_space_char (String c (rstrip s))); cbn [len]; lia.
Qed.

Lemma len_strip s : len (strip s) <= len s.
Proof.
  unfold strip, lstrip. pose proof (len_rstrip (lstrip_fuel (blen s) s)).
  pose proof (len_lstrip_fuel (blen s) s). lia.
Qed.

Lemma len_take_str n : forall s, len (take_str n s) <= n.
Proof.
  intros s. revert n. induction s as [|c s IH]; intros n; cbn [take_str len].
  - lia.
  - destruct (is_cont c) eqn:Hc; cbn [len]; rewrite ?Hc.
    + specialize (IH n). lia.
    + destruct n as [|n]; cbn [len]; rewrite ?Hc; [lia|].
      specialize (IH n). lia.
Qed.
End StringFacts.

(** ** The orchestrator *)

Section AgentFacts.
Import PyStr Re LuniaAgent Samples.

Context `{U : Unicode}.

(** *** Message analysis *)

Lemma analyse_greeting state kw :
  In kw greeting_words -> contains kw (lower (input_message state)) = true ->
  intent (analyse_message state) = Some "greeting"
  /\ confidence (analyse_message state) = (9 # 10)%Q.
Proof.
  intros Hin Hc.
  assert (Hg : any_in greeting_words (strip (lower (input_message state)))
               = true).
  { apply (any_in_intro _ kw); [done|]. apply contains_strip; [| |done];
      simpl in Hin; repeat destruct Hin as [<-|Hin]; try reflexivity; done. }
  unfold analyse_message. rewrite Hg. by destruct state.
Qed.

(** C9: a message whose lower-cased text contains a greeting keyword, at
    any position and whatever else it contains, is classified "greeting"
    with confidence 0.9 by the analysis step, whenever that step runs: the
    agent has no service integration, or the service check did not
    succeed. *)
Theorem greeting_keyword_wins E now integration state log kw :
  In kw greeting_words ->
  contains kw (lower (input_message state)) = true ->
  (integration = true ->
   success (process_service_intent E now (input_message state)
              (sender_phone state) log).1 = false) ->
  let out := _process_message_node E now integration state log in
  intent out.1 = Some "greeting" /\ confidence out.1 = (9 # 10)%Q.
Proof.
  intros Hin Hc Hno out. subst out. unfold _process_message_node.
  destruct integration.
  - unfold bind.
    destruct (process_service_intent E now (input_message state)
                (sender_phone state) log) as [res log'] eqn:Hres.
    simpl in Hno. rewrite (Hno eq_refl). unfold ret. cbn [fst].
    apply (analyse_greeting _ kw); [done | by destruct state].
  - unfold ret. cbn [fst]. by apply (analyse_greeting state kw).
Qed.

(** C10: "which services do you offer?" holds no greeting keyword as a word
    of its own, yet "hi" is a substring of "which", and the analysis step
    classifies the message "greeting" with confidence 0.9, both without a
    service integration and with one (no service pattern matches it). *)
Theorem hi_inside_which E now log phone :
  let state := new_state the_question phone in
  forallb (fun kw => negb (word_occurs kw (lower the_question))) greeting_words
    = true
  /\ contains "hi" (lower "which") = true
  /\ intent (_process_message_node E now false state log).1 = Some "greeting"
  /\ confidence (_process_message_node E now false state log).1 = (9 # 10)%Q
  /\ (process_service_intent E now the_question phone log).1 = no_action
  /\ intent (_process_message_node E now true state log).1 = Some "greeting"
  /\ confidence (_process_message_node E now true state log).1 = (9 # 10)%Q.
Proof. intros state. repeat split; vm_compute; reflexivity. Qed.

(** *** "Hola" *)

(** Without an integration layer the flag stays down, and the reply is the
    greeting followed by the invitation to continue. *)
Example hola_without_integration E now log :
  let processed :=
    (_process_message_node E now false
       (_validate_input_node (new_state "Hola" "5491")) log).1 in
  intent processed = Some "greeting"
  /\ service_action_taken processed = false
  /\ response (_generate_response_node false processed)
     = _generate_greeting_response +:+ anything_else.
Proof. repeat split; vm_compute; reflexivity. Qed.

(** C2, on the code: for "Hola" with a service integration no pattern
    matches (the matcher answers its "none" result), the intent is
    "greeting" and the reply is the greeting template; but the "none" result
    is a non-empty dictionary with [success] false, so the branch for a
    failed service action runs in [_process_message_node] and
    [service_action_taken] is true from then on. *)
Theorem hola_with_integration E now phone log :
  let validated := _validate_input_node (new_state "Hola" phone) in
  let processed := (_process_message_node E now true validated log).1 in
  let generated := _generate_response_node true processed in
  _should_continue_after_validation validated = Continue
  /\ input_message validated = "Hola"
  /\ (process_service_intent E now "Hola" phone log).1 = no_action
  /\ intent processed = Some "greeting"
  /\ service_action_taken processed = true
  /\ service_action_result processed = Some no_action
  /\ intent generated = Some "greeting"
  /\ response generated = _generate_greeting_response
  /\ service_action_taken generated = true.
Proof.
  cbn zeta. destruct phone as [|c p]; repeat split; vm_compute; reflexivity.
Qed.

(** *** Rejected input *)

(** The validation node treats a lone no-break space as an empty message,
    and counts characters, not bytes: 4001 letters "ñ" pass. *)
Example validation_counts_characters phone :
  validation_error (_validate_input_node (new_state (utf8 160) phone))
  = Some "Empty message received"
  /\ validation_error
       (_validate_input_node
          (new_state (String.concat "" (repeat "ñ" 4001)) phone))
     = None.
Proof. split; vm_compute; reflexivity. Qed.

(** C7: a message that is empty once trimmed, or whose trimmed length
    exceeds twice the 4000-character limit, gets a validation error; the
    conditional edge of the graph then leads to [handle_error], which has no
    successor, so neither the service matching nor the intent analysis nor
    the knowledge base is reached.  [_handle_error_node] sets the apology
    built from the error as the reply, with type [ERROR], and calls the
    message channel once, for that apology, when the sender is known (it
    swallows an exception of the channel); input, intent, confidence and
    the service flag are what they were on entry. *)
Theorem invalid_input_is_rejected E state log :
  is_empty (strip (input_message state)) = true
  \/ (_max_message_length * 2 < len (strip (input_message state)))%nat ->
  let validated := _validate_input_node state in
  let out := _handle_error_node E validated log in
  exists err,
    (err = "Empty message received" \/ err = "Message too long")
    /\ validation_error validated = Some err
    /\ conditional_edge (_should_continue_after_validation validated)
       = handle_error
    /\ edge handle_error = None
    /\ response out.1
       = "I apologize, but " +:+ lower err
           +:+ " Please try again with a shorter message."
    /\ message_type out.1 = ERROR
    /\ out.2 = log ++ (if truthy (sender_phone state)
                       then [SendMessage (sender_phone state) (response out.1)]
                       else [])
    /\ input_message out.1 = input_message state
    /\ intent out.1 = intent state
    /\ confidence out.1 = confidence state
    /\ service_action_taken out.1 = service_action_taken state.
Proof.
  intros Hbad validated out. subst out validated.
  assert (Hv : exists err,
             (err = "Empty message received" \/ err = "Message too long")
             /\ _validate_input_node state = with_validation_error err state).
  { unfold _validate_input_node.
    destruct (is_empty (strip (input_message state))) eqn:He; [eauto|].
    destruct Hbad as [?|Hlong]; [done|].
    apply Nat.ltb_lt in Hlong. rewrite Hlong. eauto. }
  destruct Hv as (err & Herr & Hv). exists err. split; [done|].
  rewrite Hv.
  destruct state as [im sp r mt ch pe ve ml ig ib iq it cf rs su sat sar serr].
  cbn [with_validation_error].
  assert (Hroute : forall a b c d e f h i j k l m n o p q r',
            _should_continue_after_validation
              (MkState a b c d e f (Some err) h i j k l m n o p q r') = Error).
  { intros. by destruct Herr as [-> | ->]. }
  rewrite Hroute. unfold _handle_error_node, bind, ret, call.
  cbn [validation_error with_response with_message_type sender_phone response].
  replace (if truthy err then err
           else "An error occurred processing your message.") with err
    by (by destruct Herr as [-> | ->]).
  destruct (truthy sp); cbn [fst snd]; [destruct (send_message E _ _)|];
    cbn [fst snd with_response_sent validation_error response input_message
         message_type intent confidence service_action_taken];
    repeat split; rewrite ?app_nil_r; reflexivity.
Qed.

(** *** The knowledge-base step *)

Lemma intent_is_false state name :
  intent state <> Some name -> intent_is state name = false.
Proof.
  intros H. unfold intent_is. destruct (intent state) as [i|]; [|done].
  apply String.eqb_neq. congruence.
Qed.

Lemma after_graph_answered E cfg now timeout state result st log :
  truthy (response result) = true ->
  after_graph E cfg now timeout state result st log
  = (_update_session_async cfg now result st, log).
Proof. intros Hr. unfold after_graph, bind, ret. by rewrite Hr. Qed.

Lemma update_session_state cfg now state st :
  (_update_session_async cfg now state st).1 = with_session_updated true state.
Proof. reflexivity. Qed.

(** C8: when the graph hands over a turn without a reply whose intent is
    neither "greeting" nor "goodbye", and the knowledge base has no answer
    for this turn's question or raises on it, the knowledge base is queried
    once and the reply becomes the fixed fallback text, which is not empty.
    Unless the state says a reply went out, that text is what is sent to the
    sender; the final reply is the fallback text and the session is updated,
    except when the message channel raises on it: then a handler of
    [process_message] answers with its own apology (the one for a timeout
    if the exception is an [asyncio.TimeoutError], the general one
    otherwise) and the session is left as it was. *)
Theorem knowledge_base_miss_falls_back E cfg now timeout state result st log :
  truthy (response result) = false ->
  intent result <> Some "greeting" -> intent result <> Some "goodbye" ->
  (kb_query E (input_message result) (kb_context result) = Ok None
   \/ exists e,
        kb_query E (input_message result) (kb_context result) = Raise e) ->
  let out := after_graph E cfg now timeout state result st log in
  let query := KbQuery (input_message result) (kb_context result) in
  let delivery := SendMessage (sender_phone result)
                    _generate_fallback_response in
  let apology := if timeout then timed_out else processing_error in
  truthy _generate_fallback_response = true
  /\ match (if response_sent result then Ok true
            else send_message E (sender_phone result)
                   _generate_fallback_response) with
     | Ok _ =>
         response out.1.1 = _generate_fallback_response
         /\ session_updated out.1.1 = true
         /\ out.2 = log ++ query ::
                      (if response_sent result then [] else [delivery])
     | Raise _ =>
         response out.1.1 = apology
         /\ message_type out.1.1 = ERROR
         /\ out.1.2 = st
         /\ out.2 = log ++ [query; delivery;
                            SendMessage (sender_phone state) apology]
     end.
Proof.
  intros Hempty Hg Hb Hkb out query delivery apology.
  subst out query delivery apology.
  split; [reflexivity|].
  unfold after_graph, bind. rewrite Hempty.
  rewrite (intent_is_false _ _ Hg), (intent_is_false _ _ Hb).
  cbn [negb andb orb].
  unfold _query_knowledge_base_async, bind, call.
  assert (Hfall : forall o, (o = Ok None \/ exists e, o = Raise e) ->
            forall l, (match o with
                       | Ok (Some r) =>
                           if truthy r then ret (Some r) else ret None
                       | Ok None => ret None
                       | Raise _ => ret None
                       end) l = (None, l)).
  { intros o [->|[e ->]] l; reflexivity. }
  rewrite (Hfall _ Hkb).
  destruct result as [im sp r mt ch pe ve ml ig ib iq it cf rs su sat sar serr].
  cbn [with_response response_sent response sender_phone input_message].
  assert (Ht : truthy _generate_fallback_response = true) by reflexivity.
  destruct rs; cbn [negb andb]; rewrite ?Ht.
  - unfold ret, _update_session_async.
    cbn [fst snd with_session_updated response session_updated].
    repeat split.
  - unfold ret, call, bind.
    destruct (send_message E sp _generate_fallback_response) as [ok|e].
    + unfold _update_session_async.
      cbn [fst snd with_session_updated with_response_sent response
           session_updated].
      repeat split. by rewrite <- app_assoc.
    + unfold _create_error_response, bind, call, ret.
      destruct state
        as [im' sp' r' mt' ch' pe' ve' ml' ig' ib' iq' it' cf' rs' su' sat'
            sar' serr'].
      cbn [with_response with_message_type sender_phone].
      destruct (send_message E sp' _);
        cbn [fst snd with_response_sent response message_type];
        repeat split; by rewrite <- !app_assoc.
Qed.
End AgentFacts.

(** Instances of the theorems above, on ASCII text. *)

Section AgentFactsWitnesses.
Import PyStr Re LuniaAgent Samples.
#[local] Existing Instance plain.

Lemma greeting_keyword_wins_witness :
  intent (_process_message_node null_calendar 0 false
            (new_state "What is the price? ok bye, and hello" "5491") []).1
  = Some "greeting".
Proof.
  refine (proj1 (greeting_keyword_wins null_calendar 0 false
                   (new_state "What is the price? ok bye, and hello" "5491")
                   [] "hello" _ _ _)).
  - simpl. left. reflexivity.
  - vm_compute. reflexivity.
  - intros H. discriminate H.
Defined.

Lemma invalid_input_is_rejected_witness :
  let validated := _validate_input_node (new_state "   " "5491") in
  let out := _handle_error_node null_calendar validated [] in
  validation_error validated = Some "Empty message received"
  /\ response out.1
     = "I apologize, but empty message received Please try again with a shorter message."
  /\ out.2 = [SendMessage "5491" (response out.1)]
  /\ intent out.1 = None.
Proof.
  destruct (invalid_input_is_rejected null_calendar (new_state "   " "5491")
              [])
    as (err & Herr & Hval & _ & _ & Hresp & _ & Hlog & _ & Hint & _).
  - left. reflexivity.
  - cbn zeta in *.
    assert (He : err = "Empty message received").
    { assert (Hv : validation_error
                     (_validate_input_node (new_state "   " "5491"))
                   = Some "Empty message received") by reflexivity.
      rewrite Hv in Hval. by injection Hval. }
    subst err. split; [exact Hval|]. split; [exact Hresp|].
    split; [exact Hlog | exact Hint].
Defined.

Lemma knowledge_base_miss_falls_back_witness :
  let out :=
    after_graph failing_kb Config 0 false unanswered unanswered ∅ [] in
  response out.1.1 = _generate_fallback_response
  /\ out.2 = [ KbQuery "What is your refund policy" "";
               SendMessage "5491" _generate_fallback_response ].
Proof.
  destruct (knowledge_base_miss_falls_back failing_kb Config 0 false
              unanswered unanswered ∅ []) as (_ & Hr & _ & Hlog).
  - reflexivity.
  - vm_compute. discriminate.
  - vm_compute. discriminate.
  - right. exists "index not loaded". reflexivity.
  - cbn zeta. split; [exact Hr | exact Hlog].
Defined.

End AgentFactsWitnesses.

(** * Further properties of the code *)

(** ** The session store, continued *)

Section MoreSessionFacts.
Import SessionManager.

Lemma wf_cleanup cfg now (st : store) :
  wf_store st -> wf_store (cleanup_expired_sessions cfg now st).
Proof.
  intros Hwf k s Hl. rewrite cleanup_lookup in Hl.
  destruct (st !! k) as [s0|] eqn:Hk; [|done].
  destruct (_is_session_expired cfg now s0); [done|].
  inversion Hl; subst. by apply Hwf.
Qed.

Lemma wf_add_message cfg now uid r c md (st : store) :
  wf_store st -> wf_store (add_message cfg now uid r c md st).
Proof.
  intros Hwf. destruct (st !! uid) as [s|] eqn:Hl.
  - destruct (_is_session_expired cfg now s) eqn:Hexp.
    + rewrite add_message_new by eauto.
      apply wf_insert_at; [by apply wf_delete|].
      simpl. by rewrite limit_history_user_id.
    + rewrite (add_message_live _ _ _ _ _ _ _ s) by done.
      apply wf_insert_at; [done|]. simpl.
      rewrite limit_history_user_id. simpl. by apply Hwf.
  - rewrite add_message_new by eauto.
    apply wf_insert_at; [by apply wf_delete|].
    simpl. by rewrite limit_history_user_id.
Qed.

(** X1: every method of the in-memory session manager keeps the
    invariant of the store: a session is filed under its own [user_id].
    This holds for [save_session], [delete_session], [get_session],
    [create_session], [add_message] and [cleanup_expired_sessions]. *)
Theorem store_operations_keep_invariant cfg now uid r c md s (st : store) :
  wf_store st ->
  wf_store (save_session now s st).2
  /\ wf_store (delete_session uid st).2
  /\ wf_store (get_session cfg now uid st).2
  /\ wf_store (create_session now uid st).2
  /\ wf_store (add_message cfg now uid r c md st)
  /\ wf_store (cleanup_expired_sessions cfg now st).
Proof.
  intros Hwf. repeat split.
  - unfold save_session. cbn [snd]. by apply wf_insert_at.
  - by apply wf_delete.
  - unfold get_session. destruct (st !! uid) as [s0|]; [|done].
    destruct (_is_session_expired cfg now s0); [by apply wf_delete | done].
  - unfold create_session, save_session. cbn [snd]. by apply wf_insert_at.
  - by apply wf_add_message.
  - by apply wf_cleanup.
Qed.

Lemma store_operations_keep_invariant_witness :
  wf_store (add_message Config 5 "u" USER "hi" None {[ "u" := idle ]})
  /\ wf_store (cleanup_expired_sessions Config 5 {[ "u" := idle ]}).
Proof.
  destruct (store_operations_keep_invariant Config 5 "u" USER "hi" None idle
              {[ "u" := idle ]} (wf_singleton idle))
    as (_ & _ & _ & _ & Hadd & Hsweep).
  split; [exact Hadd | exact Hsweep].
Defined.

(** X2: a session saved (or created) at time [now] is read back by
    [get_session] at any later time within the session timeout: the read
    returns the session as stored, stamped [now], and does not change the
    store.  [create_session] returns the empty session it stored. *)
Theorem saved_session_is_read_back cfg now later uid s (st : store) :
  (later - now <= Time.minutes (SESSION_TIMEOUT_MINUTES cfg))%Z ->
  get_session cfg later (user_id s) (save_session now s st).2
  = (Some (set_last_activity now s), (save_session now s st).2)
  /\ get_session cfg later uid (create_session now uid st).2
     = (Some (fresh_session now uid), (create_session now uid st).2)
  /\ (create_session now uid st).1 = fresh_session now uid.
Proof.
  intros Hgap. split; [|split].
  - apply get_session_live.
    + unfold save_session. cbn [snd]. apply lookup_insert_eq.
    + unfold _is_session_expired. simpl. apply Z.ltb_ge. lia.
  - apply get_session_live.
    + unfold create_session, save_session. cbn [snd]. apply lookup_insert_eq.
    + unfold _is_session_expired. simpl. apply Z.ltb_ge. lia.
  - reflexivity.
Qed.

Lemma saved_session_is_read_back_witness :
  get_session Config 7 "u" (save_session 5 idle ∅).2
  = (Some (set_last_activity 5 idle), (save_session 5 idle ∅).2).
Proof.
  refine (proj1 (saved_session_is_read_back Config 5 7 "u" idle ∅ _)).
  vm_compute. discriminate.
Defined.

(** X3: [delete_session] always answers [True]; afterwards the user
    has no session, deleting twice is the same as deleting once, and
    deleting a user who has no session leaves the store as it was. *)
Theorem delete_session_forgets cfg now uid (st : store) :
  (delete_session uid st).1 = true
  /\ get_session cfg now uid (delete_session uid st).2
     = (None, (delete_session uid st).2)
  /\ (delete_session uid (delete_session uid st).2).2 = (delete_session uid st).2
  /\ (st !! uid = None -> (delete_session uid st).2 = st).
Proof.
  unfold delete_session. cbn [fst snd]. repeat split.
  - unfold get_session. by rewrite lookup_delete_eq.
  - apply map_eq. intros k. destruct (decide (k = uid)) as [->|Hne].
    + by rewrite !lookup_delete_eq.
    + by rewrite !lookup_delete_ne.
  - intros Hnone. by apply delete_id.
Qed.

Lemma delete_session_forgets_witness :
  (delete_session "v" {[ "u" := idle ]}).2 = ({[ "u" := idle ]} : store).
Proof.
  destruct (delete_session_forgets Config 5 "v" {[ "u" := idle ]})
    as (_ & _ & _ & Habsent).
  apply Habsent. reflexivity.
Defined.

(** X4: reading, deleting, creating or appending to the session of
    one user never changes the entry of another user. *)
Theorem other_users_untouched cfg now uid other r c md (st : store) :
  wf_store st -> other <> uid ->
  (get_session cfg now uid st).2 !! other = st !! other
  /\ (delete_session uid st).2 !! other = st !! other
  /\ (create_session now uid st).2 !! other = st !! other
  /\ add_message cfg now uid r c md st !! other = st !! other.
Proof.
  intros Hwf Hne. repeat split.
  - unfold get_session. destruct (st !! uid) as [s0|]; [|done].
    destruct (_is_session_expired cfg now s0); [|done].
    unfold delete_session. cbn [snd]. by rewrite lookup_delete_ne.
  - unfold delete_session. cbn [snd]. by rewrite lookup_delete_ne.
  - unfold create_session, save_session. cbn [snd user_id set_last_activity].
    by rewrite lookup_insert_ne.
  - destruct (st !! uid) as [s|] eqn:Hl.
    + destruct (_is_session_expired cfg now s) eqn:Hexp.
      * rewrite add_message_new by eauto.
        rewrite lookup_insert_ne by done. by rewrite lookup_delete_ne.
      * rewrite (add_message_live _ _ _ _ _ _ _ s) by done.
        by rewrite lookup_insert_ne.
    + rewrite add_message_new by eauto.
      rewrite lookup_insert_ne by done. by rewrite lookup_delete_ne.
Qed.

Lemma other_users_untouched_witness :
  add_message Config 5 "v" USER "hi" None {[ "u" := idle ]} !! "u"
  = ({[ "u" := idle ]} : store) !! "u".
Proof.
  destruct (other_users_untouched Config 5 "v" "u" USER "hi" None
              {[ "u" := idle ]} (wf_singleton idle)) as (_ & _ & _ & H).
  - intros H. discriminate H.
  - exact H.
Defined.

(** X5: [cleanup_expired_sessions] is invisible to readers and
    idempotent: at the same clock reading [get_session] answers the same
    before and after the sweep, and a second sweep changes nothing. *)
Theorem sweep_is_invisible_to_reads cfg now uid (st : store) :
  get_session cfg now uid (cleanup_expired_sessions cfg now st)
  = ((get_session cfg now uid st).1, cleanup_expired_sessions cfg now st)
  /\ cleanup_expired_sessions cfg now (cleanup_expired_sessions cfg now st)
     = cleanup_expired_sessions cfg now st.
Proof.
  split.
  - unfold get_session at 1 2. rewrite cleanup_lookup.
    destruct (st !! uid) as [s|]; [|done].
    destruct (_is_session_expired cfg now s) eqn:Hexp; [done|].
    by rewrite Hexp.
  - apply map_eq. intros k. rewrite !cleanup_lookup.
    destruct (st !! k) as [s|]; [|done].
    destruct (_is_session_expired cfg now s) eqn:Hexp; [done|].
    by rewrite Hexp.
Qed.

Lemma limit_history_stamps cfg s :
  created_at (limit_history cfg s) = created_at s
  /\ last_activity (limit_history cfg s) = last_activity s.
Proof. unfold limit_history. by case_match. Qed.

(** X6: when the stored session of a user has expired, [add_message]
    starts over: the stored session then holds the new turn alone, and its
    [created_at] and [last_activity] are the time of the call (for a history
    limit of at least 1). *)
Theorem add_message_after_expiry cfg now uid r c md (st : store) s :
  (1 <= MAX_CONVERSATION_HISTORY cfg)%Z ->
  st !! uid = Some s ->
  (Time.minutes (SESSION_TIMEOUT_MINUTES cfg) < now - last_activity s)%Z ->
  exists s',
    add_message cfg now uid r c md st !! uid = Some s'
    /\ conversation_history s'
       = [ {| role := r; content := c; timestamp := now;
              turn_metadata := md |} ]
    /\ created_at s' = now /\ last_activity s' = now.
Proof.
  intros HM Hl Hold.
  assert (Hexp : _is_session_expired cfg now s = true).
  { unfold _is_session_expired. by apply Z.ltb_lt. }
  rewrite add_message_new by eauto. rewrite lookup_insert_eq.
  eexists. split; [done|]. cbn [set_last_activity conversation_history
                                 created_at last_activity].
  rewrite limit_history_spec by done.
  rewrite (proj1 (limit_history_stamps _ _)).
  split; [|done]. simpl. apply most_recent_all. simpl. lia.
Qed.

Lemma add_message_after_expiry_witness :
  exists s',
    add_message Config (Time.minutes 31) "u" USER "two" None {[ "u" := idle ]}
      !! "u" = Some s'
    /\ conversation_history s'
       = [ {| role := USER; content := "two"; timestamp := Time.minutes 31;
              turn_metadata := None |} ]
    /\ created_at s' = Time.minutes 31 /\ last_activity s' = Time.minutes 31.
Proof.
  apply (add_message_after_expiry Config (Time.minutes 31) "u" USER "two" None
           {[ "u" := idle ]} idle).
  - vm_compute. discriminate.
  - reflexivity.
  - vm_compute. reflexivity.
Defined.

Lemma slice_from_suffix {A} (i : Z) (l : list A) :
  exists front, l = front ++ slice_from i l.
Proof.
  unfold slice_from. eexists. symmetry. apply take_drop.
Qed.

Lemma slice_from_last {A} (n : Z) (l : list A) :
  (1 <= n)%Z -> slice_from (- n) l = most_recent (Z.to_nat n) l.
Proof.
  intros Hn. unfold slice_from, most_recent.
  replace (- n <? 0)%Z with true by (symmetry; apply Z.ltb_lt; lia).
  f_equal. lia.
Qed.

(** X7: for [max_turns >= 1], [get_recent_history] returns the last
    [min(len(history), max_turns)] turns of the history, in order; after
    [clear_history] it returns nothing. *)
Theorem recent_history_is_latest_turns max_turns s :
  (1 <= max_turns)%Z ->
  (exists older,
     conversation_history s = older ++ get_recent_history max_turns s)
  /\ length (get_recent_history max_turns s)
     = length (conversation_history s) `min` Z.to_nat max_turns
  /\ get_recent_history max_turns (clear_history s) = [].
Proof.
  intros Hn. unfold get_recent_history. repeat split.
  - apply slice_from_suffix.
  - rewrite slice_from_last by done. apply most_recent_length.
  - unfold slice_from. cbn [clear_history set_history conversation_history].
    apply drop_nil.
Qed.

Lemma recent_history_is_latest_turns_witness :
  let turn c := {| role := USER; content := c; timestamp := 0;
                   turn_metadata := None |} in
  let s := {| user_id := "u";
              conversation_history := [turn "a"; turn "b"; turn "c"];
              created_at := 0; last_activity := 0;
              session_metadata := None |} in
  (exists older, conversation_history s = older ++ get_recent_history 2 s)
  /\ length (get_recent_history 2 s) = 2
  /\ map content (get_recent_history 2 s) = ["b"; "c"].
Proof.
  intros turn s.
  destruct (recent_history_is_latest_turns 2 s) as (Holder & Hlen & _).
  - vm_compute. discriminate.
  - split; [exact Holder|]. split; [rewrite Hlen; reflexivity | reflexivity].
Defined.
End MoreSessionFacts.

(** ** The service-intent matcher, continued *)

Section MoreServiceFacts.
Import PyStr Re ServiceIntegration Samples Shapes.

Context `{U : Unicode}.

(** What a check leaves behind: the calls it appended are at most two, all
    to service collaborators; an answer is consistent, and no answer means
    no call. *)
Ltac shape_goal :=
  cbn [fst snd];
  split; [ try rewrite <- !app_assoc; try rewrite app_nil_r; reflexivity |];
  split; [ unfold service_calls_only; repeat (constructor; try reflexivity) |];
  split; [ cbn [length]; lia |];
  first [ reflexivity | split; [reflexivity | discriminate] ].

Lemma email_check_shape E now msg ml uid log :
  exists calls,
    (_check_email_intent E now msg ml uid log).2 = log ++ calls
    /\ service_calls_only calls /\ length calls <= 2
    /\ match (_check_email_intent E now msg ml uid log).1 with
       | Some r => consistent r = true /\ action r <> "none"
       | None => calls = []
       end.
Proof.
  unfold _check_email_intent.
  destruct (first_match false email_patterns ml);
    [|exists []; shape_goal].
  destruct (search false address msg) as [m|]; [|exists []; shape_goal].
  unfold _log_service_action, bind, call, ret.
  destruct (send_email E _ _ _) as [[|]|e].
  - eexists [_; _]. shape_goal.
  - eexists [_]. shape_goal.
  - eexists [_]. shape_goal.
Qed.

Lemma calendar_check_shape E now msg ml uid log :
  exists calls,
    (_check_calendar_intent E now msg ml uid log).2 = log ++ calls
    /\ service_calls_only calls /\ length calls <= 2
    /\ match (_check_calendar_intent E now msg ml uid log).1 with
       | Some r => consistent r = true /\ action r <> "none"
       | None => calls = []
       end.
Proof.
  unfold _check_calendar_intent.
  destruct (first_match false calendar_patterns ml);
    [|exists []; shape_goal].
  destruct (_extract_event_details now msg) as [ev|]; [|exists []; shape_goal].
  unfold _log_service_action, bind, call, ret.
  destruct (create_event E _ _ _ _ _ _) as [id|e].
  - destruct (truthy_id id).
    + eexists [_; _]. shape_goal.
    + eexists [_]. shape_goal.
  - eexists [_]. shape_goal.
Qed.

Lemma reminder_check_shape E now msg ml uid log :
  exists calls,
    (_check_reminder_intent E now msg ml uid log).2 = log ++ calls
    /\ service_calls_only calls /\ length calls <= 2
    /\ match (_check_reminder_intent E now msg ml uid log).1 with
       | Some r => consistent r = true /\ action r <> "none"
       | None => calls = []
       end.
Proof.
  unfold _check_reminder_intent.
  destruct (first_match false reminder_patterns ml);
    [|exists []; shape_goal].
  destruct (_extract_reminder_time now msg) as [found|e];
    [|exists []; shape_goal].
  unfold bind, call, ret.
  destruct (create_event E _ _ _ _ _ _) as [id|e].
  - destruct (truthy_id id).
    + destruct (insert E _ _) as [[]|e].
      * eexists [_; _]. shape_goal.
      * eexists [_; _]. shape_goal.
    + eexists [_]. shape_goal.
  - eexists [_]. shape_goal.
Qed.

Lemma data_check_shape E now msg ml uid log :
  exists calls,
    (_check_data_intent E now msg ml uid log).2 = log ++ calls
    /\ service_calls_only calls /\ length calls <= 2
    /\ match (_check_data_intent E now msg ml uid log).1 with
       | Some r => consistent r = true /\ action r <> "none"
       | None => calls = []
       end.
Proof.
  unfold _check_data_intent.
  destruct (any_in data_keywords ml); [|exists []; shape_goal].
  unfold bind, call, ret.
  destruct (insert E _ _) as [[]|e].
  - eexists [_]. shape_goal.
  - eexists [_]. shape_goal.
Qed.

Lemma service_intent_shape E now msg uid log :
  exists calls,
    (process_service_intent E now msg uid log).2 = log ++ calls
    /\ service_calls_only calls /\ length calls <= 2
    /\ consistent (process_service_intent E now msg uid log).1 = true
    /\ (action (process_service_intent E now msg uid log).1 = "none"
        -> calls = []).
Proof.
  unfold process_service_intent, bind.
  destruct (email_check_shape E now msg (lower msg) uid log)
    as (c1 & Hl1 & Hs1 & Hn1 & Hr1).
  destruct (_check_email_intent E now msg (lower msg) uid log)
    as [[r1|] log1]; cbn [fst snd] in *.
  { exists c1. unfold ret. cbn [fst snd]. by destruct Hr1. }
  subst c1. rewrite app_nil_r in Hl1. subst log1.
  destruct (calendar_check_shape E now msg (lower msg) uid log)
    as (c2 & Hl2 & Hs2 & Hn2 & Hr2).
  destruct (_check_calendar_intent E now msg (lower msg) uid log)
    as [[r2|] log2]; cbn [fst snd] in *.
  { exists c2. unfold ret. cbn [fst snd]. by destruct Hr2. }
  subst c2. rewrite app_nil_r in Hl2. subst log2.
  destruct (reminder_check_shape E now msg (lower msg) uid log)
    as (c3 & Hl3 & Hs3 & Hn3 & Hr3).
  destruct (_check_reminder_intent E now msg (lower msg) uid log)
    as [[r3|] log3]; cbn [fst snd] in *.
  { exists c3. unfold ret. cbn [fst snd]. by destruct Hr3. }
  subst c3. rewrite app_nil_r in Hl3. subst log3.
  destruct (data_check_shape E now msg (lower msg) uid log)
    as (c4 & Hl4 & Hs4 & Hn4 & Hr4).
  destruct (_check_data_intent E now msg (lower msg) uid log)
    as [[r4|] log4]; cbn [fst snd] in *.
  { exists c4. unfold ret. cbn [fst snd]. by destruct Hr4. }
  subst c4. rewrite app_nil_r in Hl4. subst log4.
  exists []. unfold ret. cbn [fst snd]. rewrite app_nil_r.
  repeat split; try done.
Qed.

Lemma service_calls_are_quiet (l : list Call) :
  service_calls_only l ->
  calls_of is_send_message l = [] /\ calls_of is_kb_query l = [].
Proof.
  induction 1 as [|c l Hc _ [IH1 IH2]]; [done|].
  unfold calls_of in *. rewrite !filter_cons, IH1, IH2.
  destruct c; try discriminate Hc; done.
Qed.

Lemma time_of_match_window now n m t :
  time_of_match now n m = Ok (Some t) -> (now <= t < now + Time.day)%Z.
Proof.
  unfold time_of_match. destruct (n <? 3)%nat; [discriminate|].
  set (h := match group 3 (m_groups m) with Some _ => _ | None => _ end).
  set (mi := match group 2 (m_groups m) with Some _ => _ | None => _ end).
  unfold Time.replace_hm, Time.midnight.
  destruct ((0 <=? h)%Z && (h <=? 23)%Z && (0 <=? mi)%Z && (mi <=? 59)%Z)
    eqn:Hrange.
  - apply andb_prop in Hrange as [Hrange Hm2]. 
    apply andb_prop in Hrange as [Hrange Hm1].
    apply andb_prop in Hrange as [Hh1 Hh2].
    apply Z.leb_le in Hh1, Hh2, Hm1, Hm2.
    pose proof (Z.mod_pos_bound now Time.day eq_refl) as Hmod.
    destruct (_ <? now)%Z eqn:Hlt; intros [= <-].
    + apply Z.ltb_lt in Hlt.
      unfold Time.days, Time.day, Time.hour, Time.minute, Time.second in *.
      lia.
    + apply Z.ltb_ge in Hlt.
      unfold Time.days, Time.day, Time.hour, Time.minute, Time.second in *.
      lia.
  - by destruct (23 <? h)%Z.
Qed.

Lemma scan_time_patterns_window now ps s t :
  scan_time_patterns now ps s = Ok (Some t) -> (now <= t < now + Time.day)%Z.
Proof.
  induction ps as [|[p n] ps IH]; [discriminate|]. cbn [scan_time_patterns].
  destruct (search false p s); [apply time_of_match_window | exact IH].
Qed.

Lemma extract_datetime_window now msg t :
  _extract_datetime_from_message now msg = Ok (Some t) ->
  (now <= t <= now + Time.week)%Z.
Proof.
  unfold _extract_datetime_from_message.
  assert (Hw : Time.week = (7 * Time.day)%Z) by reflexivity.
  assert (Hd : (0 < Time.day)%Z) by reflexivity.
  assert (Hh : (0 < Time.hours 1 < Time.day)%Z) by (split; reflexivity).
  assert (Hd1 : Time.days 1 = Time.day) by reflexivity.
  repeat case_match; try (intros [= <-]; lia).
  intros Hscan. apply scan_time_patterns_window in Hscan. lia.
Qed.

(** X12: an event extracted from a message never starts before the
    current time nor more than a week after it, and it ends exactly one hour
    after it starts. *)
Theorem event_starts_within_a_week now msg ev :
  _extract_event_details now msg = Some ev ->
  (now <= ev_start_datetime ev <= now + Time.week)%Z
  /\ ev_end_datetime ev = (ev_start_datetime ev + Time.hours 1)%Z.
Proof.
  unfold _extract_event_details.
  destruct (_extract_datetime_from_message now msg) as [[t|]|e] eqn:Hdt;
    [| |discriminate]; intros [= <-]; cbn [ev_start_datetime ev_end_datetime].
  - split; [|done]. by apply extract_datetime_window with msg.
  - split; [|done]. unfold Time.floor_hour.
    pose proof (Z.mod_pos_bound now Time.hour eq_refl) as Hmod.
    assert (Hh : Time.hours 1 = Time.hour) by reflexivity.
    assert (Hw : (Time.hour < Time.week)%Z) by reflexivity.
    lia.
Qed.

(** X8: whatever the message and the collaborators do, the result
    of [process_service_intent] is consistent: it reports success exactly
    with one of the four success tags, failure with an error tag or
    ["none"], and its message is never empty. *)
Theorem service_result_is_consistent E now msg uid log :
  consistent (process_service_intent E now msg uid log).1 = true.
Proof.
  by destruct (service_intent_shape E now msg uid log) as (? & _ & _ & _ & H & _).
Qed.

(** X9: [process_service_intent] makes at most two collaborator
    calls, all of them to the mail, calendar or table services: it never
    sends a WhatsApp message and never queries the knowledge base, and when
    it answers ["none"] it has called nothing. *)
Theorem service_intent_calls_services_only E now msg uid log :
  exists calls,
    (process_service_intent E now msg uid log).2 = log ++ calls
    /\ length calls <= 2
    /\ service_calls_only calls
    /\ calls_of is_send_message calls = []
    /\ calls_of is_kb_query calls = []
    /\ (action (process_service_intent E now msg uid log).1 = "none"
        -> calls = []).
Proof.
  destruct (service_intent_shape E now msg uid log)
    as (calls & Hlog & Hs & Hn & _ & Hnone).
  exists calls. destruct (service_calls_are_quiet calls Hs). done.
Qed.

(** X10: the answers of the email and calendar checks, and the calls
    they make, do not depend on the table store: [_log_service_action]
    swallows a failing insert, so an audit-log outage never turns a sent email
    or a created event into an error. *)
Theorem audit_log_failure_is_harmless E E' now msg ml uid log :
  send_email E = send_email E' ->
  create_event E = create_event E' ->
  strftime E = strftime E' ->
  _check_email_intent E now msg ml uid log
  = _check_email_intent E' now msg ml uid log
  /\ _check_calendar_intent E now msg ml uid log
     = _check_calendar_intent E' now msg ml uid log.
Proof.
  intros Hmail Hcal Hfmt. split.
  - unfold _check_email_intent.
    destruct (first_match false email_patterns ml); [|done].
    destruct (search false address msg) as [m|]; [|done].
    unfold _log_service_action, bind, call, ret. rewrite <- Hmail.
    by destruct (send_email E _ _ _) as [[|]|e].
  - unfold _check_calendar_intent.
    destruct (first_match false calendar_patterns ml); [|done].
    destruct (_extract_event_details now msg) as [ev|]; [|done].
    unfold _log_service_action, bind, call, ret. rewrite <- Hcal, <- Hfmt.
    destruct (create_event E _ _ _ _ _ _) as [id|e]; [|done].
    by destruct (truthy_id id).
Qed.

(** X11: the email check has priority: when an email pattern matches
    the lower-cased message, the answer is [email_sent] or [email_error],
    no calendar event is created even if the message also asks for one, and
    the only table written is [service_actions]. *)
Theorem email_check_comes_first E now msg uid log m :
  first_match false email_patterns (lower msg) = Some m ->
  exists calls,
    (process_service_intent E now msg uid log).2 = log ++ calls
    /\ mem (action (process_service_intent E now msg uid log).1)
         ["email_sent"; "email_error"] = true
    /\ calls_of is_create_event calls = []
    /\ Forall (fun c => forall table record,
                 c = Insert table record -> table = "service_actions") calls.
Proof.
  intros Hm. unfold process_service_intent, bind, _check_email_intent.
  rewrite Hm.
  destruct (search false address msg) as [a|].
  2:{ exists []. unfold ret. cbn [fst snd]. by rewrite app_nil_r. }
  unfold _log_service_action, bind, call, ret.
  destruct (send_email E _ _ _) as [[|]|e]; cbn [fst snd].
  - eexists [_; _]. split; [by rewrite <- app_assoc|].
    split; [done|]. split; [done|].
    repeat constructor; intros ? ? [=]; done.
  - eexists [_]. split; [done|]. split; [done|]. split; [done|].
    repeat constructor; intros ? ? [=].
  - eexists [_]. split; [done|]. split; [done|]. split; [done|].
    repeat constructor; intros ? ? [=].
Qed.

(** X13: a time given the Spanish way ("a las 15:00"), in a message
    without a day word and without an "at H" time, makes
    [_extract_datetime_from_message] raise [IndexError] ("no such group",
    from [match.group(3)] on the pattern with two groups);
    [_extract_event_details] then returns [None] and the calendar check
    answers [calendar_error] without calling the calendar. *)
Theorem a_las_time_is_not_understood E now msg uid log m :
  no_day_word msg = true ->
  search false (time_pattern 0) (lower msg) = None ->
  search false (time_pattern 1) (lower msg) = Some m ->
  _extract_datetime_from_message now msg = Raise "no such group"
  /\ _extract_event_details now msg = None
  /\ (forall c,
        first_match false calendar_patterns (lower msg) = Some c ->
        _check_calendar_intent E now msg (lower msg) uid log
        = (Some (failure "calendar_error"
             "No pude extraer los detalles del evento. Por favor proporciona más información."),
           log)).
Proof.
  intros Hday H0 H1. unfold no_day_word in Hday.
  unfold time_pattern, time_patterns in H0, H1. cbn [nth fst] in H0, H1.
  apply negb_true_iff in Hday.
  repeat (apply orb_false_iff in Hday as [Hday ?]).
  assert (Hdt : _extract_datetime_from_message now msg = Raise "no such group").
  { unfold _extract_datetime_from_message.
    repeat match goal with H : contains _ _ = false |- _ => rewrite H; clear H
           end.
    cbn [orb]. unfold time_patterns. cbn [scan_time_patterns].
    rewrite H0, H1. unfold time_of_match. reflexivity. }
  assert (Hev : _extract_event_details now msg = None).
  { unfold _extract_event_details. by rewrite Hdt. }
  repeat split; try done.
  intros c Hc. unfold _check_calendar_intent. by rewrite Hc, Hev.
Qed.

Lemma extract_reminder_window now msg t :
  _extract_reminder_time now msg = Ok (Some t) ->
  (now <= t <= now + Time.week)%Z.
Proof.
  unfold _extract_reminder_time.
  assert (Hw : Time.week = (7 * Time.day)%Z) by reflexivity.
  assert (Hd : (0 < Time.day)%Z) by reflexivity.
  assert (Hh : (0 < Time.hours 1 < Time.day)%Z) by (split; reflexivity).
  assert (Hm : (0 < Time.minutes 30 < Time.day)%Z) by (split; reflexivity).
  assert (Hd1 : Time.days 1 = Time.day) by reflexivity.
  repeat case_match; try (intros [= <-]; lia).
  apply extract_datetime_window.
Qed.

(** X14: a reminder is a 15-minute calendar event: whenever a reminder
    pattern matches and the time extraction returns, the check first calls
    the calendar for an event that starts at the extracted time, by default
    one hour from now, never in the past nor more than a week ahead, and
    ends 15 minutes later.  The only other call it may make is one insert
    into [reminders]; it reports success only after that insert; and while
    every insert raises, the answer is [reminder_error], although the
    calendar was called for the event first. *)
Theorem reminder_is_a_quarter_hour_event E now msg ml uid log m found :
  first_match false reminder_patterns ml = Some m ->
  _extract_reminder_time now msg = Ok found ->
  exists r start rest,
    _check_reminder_intent E now msg ml uid log
    = (Some r,
       log ++ CreateEvent
                ("🔔 Recordatorio: " +:+ default EmptyString (group 1 (m_groups m)))
                ("Recordatorio solicitado por usuario " +:+ uid)
                start (start + Time.minutes 15)%Z None None :: rest)
    /\ start = default (now + Time.hours 1)%Z found
    /\ (now <= start <= now + Time.week)%Z
    /\ (rest = [] \/ exists record, rest = [Insert "reminders" record])
    /\ (success r = true -> exists record, rest = [Insert "reminders" record])
    /\ (forall e, (forall table record, insert E table record = Raise e) ->
        action r = "reminder_error" /\ success r = false).
Proof.
  intros Hm Ht. unfold _check_reminder_intent. rewrite Hm, Ht.
  unfold bind, call, ret.
  assert (Hwin : (now <= default (now + Time.hours 1) found
                  <= now + Time.week)%Z).
  { destruct found as [t|]; cbn [default].
    - by apply extract_reminder_window with msg.
    - assert (0 < Time.hours 1 < Time.week)%Z by (split; reflexivity). lia. }
  change (match found with Some t => t | None => (now + Time.hours 1)%Z end)
    with (default (now + Time.hours 1)%Z found).
  destruct (create_event E _ _ _ _ _ _) as [id|e'].
  - destruct (truthy_id id).
    + match goal with
      | |- context [insert E "reminders" ?rec] =>
          destruct (insert E "reminders" rec) as [[]|e'] eqn:Hins;
          (eexists _, _, [Insert "reminders" rec]; rewrite <- app_assoc;
           split; [reflexivity|]; split; [reflexivity|]; split; [exact Hwin|];
           split; [right; eauto|]; split; [eauto|])
      end.
      * intros e Hall. rewrite Hall in Hins. discriminate Hins.
      * done.
    + eexists _, _, []. split; [reflexivity|]. split; [reflexivity|].
      split; [exact Hwin|]. split; [by left|]. split; [discriminate | done].
  - eexists _, _, []. split; [reflexivity|]. split; [reflexivity|].
    split; [exact Hwin|]. split; [by left|]. split; [discriminate | done].
Qed.

(** X15: when no email, calendar or reminder pattern matches, a
    message that merely contains a data keyword as a substring ("get" inside
    "forget") is stored in [user_queries] with its original text, and the
    answer is [data_query_logged], or [data_error] if the insert raises. *)
Theorem data_keyword_inside_a_word E now msg uid log :
  first_match false email_patterns (lower msg) = None ->
  first_match false calendar_patterns (lower msg) = None ->
  first_match false reminder_patterns (lower msg) = None ->
  any_in data_keywords (lower msg) = true ->
  let record := [ ("user_id", VAtom (AStr uid));
                  ("query", VAtom (AStr msg));
                  ("query_type", VAtom (AStr "data_request"));
                  ("timestamp", VAtom (ATime now));
                  ("processed", VAtom (ABool false)) ] in
  (process_service_intent E now msg uid log).2
  = log ++ [Insert "user_queries" record]
  /\ action (process_service_intent E now msg uid log).1
     = match insert E "user_queries" record with
       | Ok _ => "data_query_logged"
       | Raise _ => "data_error"
       end
  /\ success (process_service_intent E now msg uid log).1
     = match insert E "user_queries" record with
       | Ok _ => true
       | Raise _ => false
       end.
Proof.
  intros He Hc Hr Hd record.
  unfold process_service_intent, bind, _check_email_intent,
    _check_calendar_intent, _check_reminder_intent, _check_data_intent.
  rewrite He, Hc, Hr, Hd. unfold bind, call, ret. cbn [fst snd].
  fold record. by destruct (insert E "user_queries" record).
Qed.

(** X16: the body produced by [_extract_email_body] is never shorter than
    10 characters: it is the standard text followed by the whole message,
    or a text of 10 characters or more without leading or trailing
    whitespace. *)
Theorem email_body_is_never_short msg recipient :
  10 <= len (_extract_email_body msg recipient)
  /\ (_extract_email_body msg recipient
      = "Mensaje enviado desde el asistente WhatsApp de Lunia Soluciones."
          +:+ nl +:+ nl +:+ "Contenido: " +:+ msg
      \/ strip (_extract_email_body msg recipient)
         = _extract_email_body msg recipient).
Proof.
  unfold _extract_email_body.
  destruct (len _ <? 10)%nat eqn:Hlen.
  - split; [|by left].
    rewrite len_append.
    assert (H : 10 <= len "Mensaje enviado desde el asistente WhatsApp de Lunia Soluciones.")
      by (apply Nat.leb_le; reflexivity).
    lia.
  - split; [by apply Nat.ltb_ge in Hlen|]. right. apply strip_strip.
Qed.
End MoreServiceFacts.

(** Instances of the theorems above, on ASCII text. *)

Section MoreServiceFactsWitnesses.
Import PyStr Re ServiceIntegration Samples Shapes.
#[local] Existing Instance plain.

Lemma event_starts_within_a_week_witness :
  exists ev,
    _extract_event_details ten_am "Schedule meeting at 9am" = Some ev
    /\ ((ten_am <= ev_start_datetime ev <= ten_am + Time.week)%Z
        /\ ev_end_datetime ev = (ev_start_datetime ev + Time.hours 1)%Z).
Proof.
  eexists. split.
  - vm_compute. reflexivity.
  - apply (event_starts_within_a_week ten_am "Schedule meeting at 9am").
    vm_compute. reflexivity.
Defined.

Lemma service_intent_calls_services_only_witness :
  exists calls,
    (process_service_intent null_calendar ten_am "Hola" "u" []).2 = [] ++ calls
    /\ calls = [].
Proof.
  destruct (service_intent_calls_services_only null_calendar ten_am "Hola" "u"
              []) as (calls & Hlog & _ & _ & _ & _ & Hnone).
  exists calls. split; [exact Hlog|]. apply Hnone. reflexivity.
Defined.

Lemma audit_log_failure_is_harmless_witness :
  _check_email_intent failing_kb ten_am the_mail (lower the_mail) "u" []
  = _check_email_intent
      {| send_email := send_email failing_kb;
         create_event := create_event failing_kb;
         insert := fun _ _ => Raise "table is down";
         kb_query := kb_query failing_kb;
         send_message := send_message failing_kb;
         strftime := strftime failing_kb |}
      ten_am the_mail (lower the_mail) "u" [].
Proof.
  refine (proj1 (audit_log_failure_is_harmless failing_kb _ ten_am the_mail
                   (lower the_mail) "u" [] _ _ _)); reflexivity.
Defined.

Lemma email_check_comes_first_witness :
  exists calls,
    (process_service_intent failing_kb ten_am
       "Send email to ana@lunia.co and schedule meeting tomorrow" "u" []).2
    = [] ++ calls
    /\ mem (action (process_service_intent failing_kb ten_am
                      "Send email to ana@lunia.co and schedule meeting tomorrow"
                      "u" []).1)
         ["email_sent"; "email_error"] = true
    /\ calls_of is_create_event calls = []
    /\ Forall (fun c => forall table record,
                 c = Insert table record -> table = "service_actions") calls.
Proof.
  eapply (email_check_comes_first failing_kb ten_am
            "Send email to ana@lunia.co and schedule meeting tomorrow" "u" []).
  vm_compute. reflexivity.
Defined.

Lemma a_las_time_is_not_understood_witness :
  _extract_datetime_from_message ten_am "Programar cita a las 15:00"
  = Raise "no such group"
  /\ _extract_event_details ten_am "Programar cita a las 15:00" = None
  /\ _check_calendar_intent failing_kb ten_am "Programar cita a las 15:00"
       (lower "Programar cita a las 15:00") "u" []
     = (Some (failure "calendar_error"
          "No pude extraer los detalles del evento. Por favor proporciona más información."),
        []).
Proof.
  edestruct (a_las_time_is_not_understood failing_kb ten_am
               "Programar cita a las 15:00" "u" [])
    as (H1 & H2 & H3); [vm_compute; reflexivity ..|].
  split; [exact H1|]. split; [exact H2|].
  eapply H3. vm_compute. reflexivity.
Defined.

Lemma reminder_is_a_quarter_hour_event_witness :
  exists r start rest,
    _check_reminder_intent
      {| send_email := send_email failing_kb;
         create_event := create_event failing_kb;
         insert := fun _ _ => Raise "table is down";
         kb_query := kb_query failing_kb;
         send_message := send_message failing_kb;
         strftime := strftime failing_kb |}
      ten_am "Remind me to call Ana in 30 minutes"
      (lower "Remind me to call Ana in 30 minutes") "u" []
    = (Some r,
       [] ++ CreateEvent "🔔 Recordatorio: to call ana in 30 minutes"
               "Recordatorio solicitado por usuario u"
               start (start + Time.minutes 15)%Z None None :: rest)
    /\ start = (ten_am + Time.minutes 30)%Z
    /\ (ten_am <= start <= ten_am + Time.week)%Z
    /\ action r = "reminder_error" /\ success r = false.
Proof.
  edestruct (reminder_is_a_quarter_hour_event
               {| send_email := send_email failing_kb;
                  create_event := create_event failing_kb;
                  insert := fun _ _ => Raise "table is down";
                  kb_query := kb_query failing_kb;
                  send_message := send_message failing_kb;
                  strftime := strftime failing_kb |}
               ten_am "Remind me to call Ana in 30 minutes"
               (lower "Remind me to call Ana in 30 minutes") "u" []
               {| m_text := "remind me to call ana in 30 minutes";
                  m_groups := [(1%nat, "to call ana in 30 minutes")];
                  m_rest := "" |}
               (Some (ten_am + Time.minutes 30)%Z))
    as (r & start & rest & Hout & Hstart & Hwin & _ & _ & Hdown).
  - vm_compute. reflexivity.
  - vm_compute. reflexivity.
  - exists r, start, rest. split; [exact Hout|]. split; [exact Hstart|].
    split; [exact Hwin|]. apply (Hdown "table is down"). reflexivity.
Defined.

Lemma data_keyword_inside_a_word_witness :
  (process_service_intent failing_kb ten_am "I will never forget you" "u" []).2
  = [Insert "user_queries"
       [ ("user_id", VAtom (AStr "u"));
         ("query", VAtom (AStr "I will never forget you"));
         ("query_type", VAtom (AStr "data_request"));
         ("timestamp", VAtom (ATime ten_am));
         ("processed", VAtom (ABool false)) ]]
  /\ action (process_service_intent failing_kb ten_am
               "I will never forget you" "u" []).1 = "data_query_logged".
Proof.
  destruct (data_keyword_inside_a_word failing_kb ten_am
              "I will never forget you" "u" [])
    as (Hlog & Hact & _); [vm_compute; reflexivity ..|].
  split; [exact Hlog | exact Hact].
Defined.

End MoreServiceFactsWitnesses.

Section UsageStatistics.
Import Statistics.

Lemma count_of_set_count t t' v counts :
  count_of t (set_count t' v counts)
  = if bool_decide (t = t') then v else count_of t counts.
Proof.
  induction counts as [|[k n] counts IH]; cbn [set_count count_of].
  - done.
  - destruct (bool_decide (t' = k)) eqn:Hk; cbn [count_of].
    + apply bool_decide_eq_true in Hk as <-.
      by destruct (bool_decide (t = t')).
    + rewrite IH. destruct (bool_decide (t = t')) eqn:H1; [|done].
      apply bool_decide_eq_true in H1 as ->. by rewrite Hk.
Qed.

Lemma sum_counts_set_count t v counts :
  sum_counts (set_count t v counts) + count_of t counts
  = sum_counts counts + v.
Proof.
  induction counts as [|[k n] counts IH]; cbn [set_count count_of].
  - cbn. lia.
  - destruct (bool_decide (t = k)); unfold sum_counts in *;
      cbn [foldr snd] in *; lia.
Qed.

Lemma count_actions_from t counts actions :
  count_of t
    (foldl (fun counts a =>
              set_count (type_of a) (count_of (type_of a) counts + 1) counts)
       counts actions)
  = count_of t counts + length (rows_of_type t actions)
  /\ sum_counts
       (foldl (fun counts a =>
                 set_count (type_of a) (count_of (type_of a) counts + 1) counts)
          counts actions)
     = sum_counts counts + length actions.
Proof.
  revert counts.
  induction actions as [|a actions IH]; intros counts; cbn [foldl].
  - cbn. lia.
  - destruct (IH (set_count (type_of a) (count_of (type_of a) counts + 1)
                    counts)) as [IH1 IH2].
    rewrite IH1, IH2, count_of_set_count.
    pose proof (sum_counts_set_count (type_of a)
                  (count_of (type_of a) counts + 1) counts) as Hsum.
    unfold rows_of_type. rewrite filter_cons. cbn [length].
    split; [|lia].
    case_bool_decide as Ht.
    + subst t. rewrite decide_True by done. cbn [length]. lia.
    + rewrite decide_False by done. done.
Qed.

(** X17: [get_service_statistics] on the rows that [select]
    returned: [total_actions] is their number, the count of each action type
    is the number of rows of that type (a row without the column counts as
    ["unknown"]), and the counts add up to the total. *)
Theorem statistics_count_every_row now actions :
  match get_service_statistics now (Ok (Some actions)) with
  | Stats total types _ =>
      total = length actions
      /\ (forall t, count_of t types = length (rows_of_type t actions))
      /\ sum_counts types = total
  | StatsError _ => False
  end.
Proof.
  destruct actions as [|a actions]; [done|].
  cbn [get_service_statistics]. split; [done|].
  unfold count_actions. split.
  - intros t. by rewrite (proj1 (count_actions_from t [] (a :: actions))).
  - by rewrite (proj2 (count_actions_from None [] (a :: actions))).
Qed.
End UsageStatistics.

(** ** The conversation orchestrator, continued *)

Section MoreAgentFacts.
Import PyStr Re LuniaAgent Samples Shapes.

Context `{U : Unicode}.

Ltac st_cbn :=
  cbn [input_message sender_phone response message_type conversation_history
       processing_errors validation_error message_length is_greeting
       is_goodbye is_question intent confidence response_sent session_updated
       service_action_taken service_action_result service_error
       with_input with_validation_error with_response with_message_type
       with_response_sent with_session_updated add_processing_error
       with_flags with_intent with_service_result with_service_error
       fst snd] in *.

Lemma post_process_greeting s :
  truthy (_post_process_response _generate_greeting_response s) = true.
Proof.
  unfold _post_process_response.
  destruct (truthy (sender_phone s) && negb (is_goodbye s)
            && negb (service_action_taken s)); vm_compute; reflexivity.
Qed.

Lemma post_process_goodbye s :
  truthy (_post_process_response _generate_goodbye_response s) = true.
Proof.
  unfold _post_process_response.
  destruct (truthy (sender_phone s) && negb (is_goodbye s)
            && negb (service_action_taken s)); vm_compute; reflexivity.
Qed.

(** What [_generate_response_node] may change is the response; it leaves it
    empty only when the intent is neither greeting nor goodbye. *)
Lemma generate_response_shape si s :
  exists r,
    _generate_response_node si s = with_response r s
    /\ (truthy r = false ->
        intent_is s "greeting" = false /\ intent_is s "goodbye" = false)
    /\ (service_action_taken s = true -> truthy (response s) = true ->
        r = response s).
Proof.
  unfold _generate_response_node.
  destruct (service_action_taken s && truthy (response s)) eqn:Hshort.
  { exists (response s). split; [by destruct s|].
    apply andb_prop in Hshort as [_ Hr]. split; [congruence | done]. }
  assert (Hno : service_action_taken s = true -> truthy (response s) = true ->
                False).
  { intros H1 H2. rewrite H1, H2 in Hshort. discriminate. }
  destruct (intent_is s "greeting") eqn:Hg.
  { destruct s; st_cbn.
    replace (truthy _generate_greeting_response) with true
      by (vm_compute; reflexivity).
    eexists. split; [reflexivity|].
    rewrite post_process_greeting. split; [discriminate|].
    intros; exfalso; auto. }
  destruct (intent_is s "goodbye") eqn:Hb.
  { destruct s; st_cbn.
    replace (truthy _generate_goodbye_response) with true
      by (vm_compute; reflexivity).
    eexists. split; [reflexivity|].
    rewrite post_process_goodbye. split; [discriminate|].
    intros; exfalso; auto. }
  match goal with
  | |- context [if truthy (response ?s') then _ else _] =>
      assert (Hs' : exists r0, s' = with_response r0 s)
  end.
  { repeat case_match; eauto. exists (response s). by destruct s. }
  destruct Hs' as [r0 Hs']. rewrite Hs'.
  destruct s; st_cbn.
  destruct (truthy r0) eqn:Hr0.
  - eexists. split; [reflexivity|]. split; [done|]. intros; exfalso; auto.
  - exists r0. split; [reflexivity|]. split; [done|]. intros; exfalso; auto.
Qed.

Lemma analyse_message_keeps s :
  sender_phone (analyse_message s) = sender_phone s
  /\ response_sent (analyse_message s) = response_sent s
  /\ input_message (analyse_message s) = input_message s
  /\ response (analyse_message s) = response s
  /\ service_action_taken (analyse_message s) = service_action_taken s.
Proof. unfold analyse_message. by destruct s. Qed.

Lemma process_node_shape E now si s log :
  let r := (process_service_intent E now (input_message s) (sender_phone s)
              log).1 in
  let out := _process_message_node E now si s log in
  exists svc,
    out.2 = log ++ svc /\ service_calls_only svc /\ length svc <= 2
    /\ sender_phone out.1 = sender_phone s
    /\ response_sent out.1 = response_sent s
    /\ input_message out.1 = input_message s
    /\ (si = true -> success r = true ->
        service_action_taken out.1 = true
        /\ response out.1 = message r
        /\ truthy (message r) = true
        /\ intent out.1 = Some ("service_" +:+ action r)
        /\ confidence out.1 = (95 # 100)%Q).
Proof.
  intros r out. subst r out. unfold _process_message_node.
  destruct si.
  - unfold bind.
    destruct (service_intent_shape E now (input_message s) (sender_phone s) log)
      as (svc & Hlog & Hsvc & Hlen & Hcons & _).
    destruct (process_service_intent E now (input_message s) (sender_phone s)
                log) as [r log1]. cbn [fst snd] in *.
    exists svc. unfold ret.
    destruct (success r) eqn:Hok; cbn [fst snd].
    + repeat split; try done; try (by destruct s).
      all: try (unfold consistent in Hcons; by apply andb_prop in Hcons as [_ ?]).

    + destruct (analyse_message_keeps
                  (with_service_error (message r) (with_service_result r s)))
        as (-> & -> & -> & _).
      repeat split; try done; by destruct s.
  - exists []. unfold ret. cbn [fst snd]. rewrite app_nil_r.
    destruct (analyse_message_keeps s) as (-> & -> & -> & _).
    split; [done|]. split; [constructor|]. split; [cbn [length]; lia|].
    repeat split; done.
Qed.

(** X21: a service action that succeeds is the whole reply: when
    [process_service_intent] succeeds on the message of the state,
    [_process_message_node] makes no call of its own, and after
    [_generate_response_node] the response is the service's message
    verbatim (no template, no closing invitation), which is not empty; the
    intent is ["service_"] followed by the action tag, with confidence
    0.95; [service_action_taken] is set and the result is kept. *)
Theorem successful_service_action_is_the_reply E now s log :
  success (process_service_intent E now (input_message s) (sender_phone s)
             log).1 = true ->
  let served := process_service_intent E now (input_message s)
                  (sender_phone s) log in
  let processed := _process_message_node E now true s log in
  let generated := _generate_response_node true processed.1 in
  processed.2 = served.2
  /\ generated = processed.1
  /\ response generated = message served.1
  /\ truthy (response generated) = true
  /\ intent generated = Some ("service_" +:+ action served.1)
  /\ confidence generated = (95 # 100)%Q
  /\ service_action_taken generated = true
  /\ service_action_result generated = Some served.1.
Proof.
  intros Hok served processed generated. subst served processed generated.
  destruct (process_node_shape E now true s log)
    as (svc & _ & _ & _ & _ & _ & _ & Hsucc).
  destruct (Hsucc eq_refl Hok) as (Htaken & Hresp & Htruthy & Hint & Hconf).
  clear Hsucc.
  assert (Hlog : (_process_message_node E now true s log).2
                 = (process_service_intent E now (input_message s)
                      (sender_phone s) log).2
                 /\ service_action_result
                      (_process_message_node E now true s log).1
                    = Some (process_service_intent E now (input_message s)
                              (sender_phone s) log).1).
  { unfold _process_message_node, bind.
    destruct (process_service_intent E now (input_message s) (sender_phone s)
                log) as [r log1]. cbn [fst snd] in *. rewrite Hok.
    unfold ret. cbn [fst snd]. by destruct s. }
  destruct Hlog as [Hlog Hres].
  destruct (generate_response_shape true
              (_process_message_node E now true s log).1)
    as (r2 & Hgen & _ & Hsame).
  rewrite Hgen, (Hsame Htaken) by (by rewrite Hresp).
  replace (with_response
             (response (_process_message_node E now true s log).1)
             (_process_message_node E now true s log).1)
    with (_process_message_node E now true s log).1
    by (by destruct (_process_message_node E now true s log).1).
  rewrite Hresp. repeat split; done.
Qed.

Lemma len_keep_sentences sentences : forall truncated,
  len truncated <= _max_message_length - 50 ->
  len (keep_sentences truncated sentences) <= _max_message_length - 50.
Proof.
  induction sentences as [|x rest IH]; intros truncated Hlen;
    cbn [keep_sentences]; [done|].
  destruct (len (truncated +:+ x +:+ ".") <=? _max_message_length - 50)%nat
    eqn:Hfit; [|done].
  apply IH. by apply Nat.leb_le.
Qed.

(** X22: a post-processed response always fits a WhatsApp message: whatever
    the response and the state, [_post_process_response] returns at most
    [_max_message_length] (4000) characters. *)
Theorem post_processed_response_fits resp state :
  len (_post_process_response resp state) <= _max_message_length.
Proof.
  unfold _post_process_response.
  set (cut := if (_max_message_length <? len resp)%nat then _ else resp).
  assert (Hcut : len cut <= _max_message_length).
  { subst cut. destruct (_max_message_length <? len resp)%nat eqn:Hlong.
    - pose proof (len_keep_sentences (split_dot resp) EmptyString) as Hkeep.
      destruct (truthy (keep_sentences EmptyString (split_dot resp))).
      + rewrite len_append.
        assert (Hnote : len (nl +:+ nl +:+ "(Mensaje truncado por longitud)")
                        = 33) by reflexivity.
        rewrite Hnote.
        assert (Hempty : len EmptyString <= _max_message_length - 50)
          by (cbn; lia).
        specialize (Hkeep Hempty).
        assert (Hmax : _max_message_length - 50 + 33 <= _max_message_length)
          by (vm_compute; discriminate || (apply Nat.leb_le; reflexivity)).
        lia.
      + rewrite len_append. pose proof (len_take_str
                                          (_max_message_length - 50) resp).
        assert (Hdots : len "..." = 3) by reflexivity. rewrite Hdots.
        assert (Hmax : _max_message_length - 50 + 3 <= _max_message_length)
          by (apply Nat.leb_le; reflexivity).
        lia.
    - by apply Nat.ltb_ge in Hlong. }
  etransitivity; [apply len_strip|].
  destruct (truthy (sender_phone state) && negb (is_goodbye state)
            && negb (service_action_taken state)); [|done].
  destruct (len cut + 50 <? _max_message_length)%nat eqn:Hroom; [|done].
  apply Nat.ltb_lt in Hroom. rewrite len_append.
  assert (Hinv : len anything_else <= 50) by (apply Nat.leb_le; reflexivity).
  lia.
Qed.

(** X23: validation is idempotent: validating a state that went through
    [_validate_input_node] changes nothing, whether the first pass accepted
    the message (the input is then already stripped) or rejected it. *)
Theorem validation_is_idempotent state :
  _validate_input_node (_validate_input_node state)
  = _validate_input_node state.
Proof.
  unfold _validate_input_node at 2.
  destruct (is_empty (strip (input_message state))) eqn:Hempty.
  { unfold _validate_input_node.
    replace (input_message (with_validation_error "Empty message received"
                              state))
      with (input_message state) by (by destruct state).
    rewrite Hempty. by destruct state. }
  destruct (_max_message_length * 2 <? len (strip (input_message state)))%nat
    eqn:Hlong.
  { unfold _validate_input_node.
    replace (input_message (with_validation_error "Message too long" state))
      with (input_message state) by (by destruct state).
    rewrite Hempty, Hlong. by destruct state. }
  unfold _validate_input_node.
  replace (input_message (with_input (strip (input_message state))
                            (len (strip (input_message state))) state))
    with (strip (input_message state)) by (by destruct state).
  rewrite strip_strip, Hempty, Hlong. by destruct state.
Qed.

(** X24: what an accepted message looks like: when [_validate_input_node]
    records no error, the input was replaced by its stripped form, which is
    not empty, has at most 8000 characters and has no leading or trailing
    whitespace left to strip; [message_length] is its length in characters,
    and the conditional edge leads on to [process_message]. *)
Theorem accepted_input_is_normalised state :
  validation_error (_validate_input_node state) = None ->
  let v := _validate_input_node state in
  input_message v = strip (input_message state)
  /\ strip (input_message v) = input_message v
  /\ input_message v <> EmptyString
  /\ len (input_message v) <= 2 * _max_message_length
  /\ message_length v = len (input_message v)
  /\ conditional_edge (_should_continue_after_validation v)
     = process_message_n.
Proof.
  intros Hnone v. subst v. unfold _validate_input_node in *.
  destruct (is_empty (strip (input_message state))) eqn:Hempty.
  { by destruct state. }
  destruct (_max_message_length * 2 <? len (strip (input_message state)))%nat
    eqn:Hlong.
  { by destruct state. }
  apply Nat.ltb_ge in Hlong.
  unfold _should_continue_after_validation. rewrite Hnone.
  assert (Hin : input_message (with_input (strip (input_message state))
                                 (len (strip (input_message state))) state)
                = strip (input_message state)) by (by destruct state).
  assert (Hml : message_length (with_input (strip (input_message state))
                                  (len (strip (input_message state))) state)
                = len (strip (input_message state))) by (by destruct state).
  rewrite Hin, Hml, strip_strip. repeat split; try done; try lia.
  intros Heq. by rewrite Heq in Hempty.
Qed.

Lemma analyse_message_intent s :
  exists i,
    intent (analyse_message s) = Some i
    /\ mem i [ "greeting"; "goodbye"; "pricing_inquiry"; "service_inquiry";
               "scheduling"; "email_request"; "calendar_request";
               "ai_consultation"; "general_inquiry" ] = true
    /\ confidence (analyse_message s)
       = (if mem i ["greeting"; "goodbye"] then (9 # 10)%Q else (7 # 10)%Q).
Proof.
  unfold analyse_message.
  set (m := strip (lower (input_message s))).
  exists (detect_intent (any_in greeting_words m) (any_in goodbye_words m) m).
  split; [by destruct s|]. split; [|by destruct s].
  unfold detect_intent. repeat case_match; reflexivity.
Qed.

(** X26: [_process_message_node] always classifies the message: afterwards
    the intent is one of the nine conversational intents, with confidence
    0.9 for a greeting or a goodbye and 0.7 otherwise and the response left
    as it was, or it is ["service_"] followed by a success tag of the
    service layer, with confidence 0.95. *)
Theorem process_node_sets_known_intent E now si s log :
  let out := _process_message_node E now si s log in
  exists i,
    intent out.1 = Some i
    /\ ((mem i [ "greeting"; "goodbye"; "pricing_inquiry"; "service_inquiry";
                 "scheduling"; "email_request"; "calendar_request";
                 "ai_consultation"; "general_inquiry" ] = true
         /\ confidence out.1
            = (if mem i ["greeting"; "goodbye"]
               then (9 # 10)%Q else (7 # 10)%Q)
         /\ response out.1 = response s)
        \/ (exists tag, i = "service_" +:+ tag
                        /\ mem tag success_tags = true
                        /\ confidence out.1 = (95 # 100)%Q
                        /\ service_action_taken out.1 = true)).
Proof.
  cbn zeta. unfold _process_message_node. destruct si.
  - unfold bind.
    destruct (service_intent_shape E now (input_message s) (sender_phone s)
                log) as (? & _ & _ & _ & Hcons & _).
    destruct (process_service_intent E now (input_message s) (sender_phone s)
                log) as [r log1]. cbn [fst snd] in *. unfold ret.
    destruct (success r) eqn:Hok; cbn [fst snd].
    + exists ("service_" +:+ action r). split; [by destruct s|]. right.
      exists (action r). unfold consistent in Hcons. rewrite Hok in Hcons.
      apply andb_prop in Hcons as [Htag _].
      repeat split; try done; by destruct s.
    + destruct (analyse_message_intent
                  (with_service_error (message r) (with_service_result r s)))
        as (i & Hi & Hmem & Hconf).
      exists i. split; [done|]. left. split; [done|]. split; [done|].
      destruct (analyse_message_keeps
                  (with_service_error (message r) (with_service_result r s)))
        as (_ & _ & _ & -> & _). by destruct s.
  - unfold ret. cbn [fst snd].
    destruct (analyse_message_intent s) as (i & Hi & Hmem & Hconf).
    exists i. split; [done|]. left. split; [done|]. split; [done|].
    by destruct (analyse_message_keeps s) as (_ & _ & _ & -> & _).
Qed.

(** X27: a goodbye is answered by the goodbye text alone: when the stripped,
    lower-cased message contains a goodbye keyword and no greeting keyword,
    no reply is pending and the service layer does not succeed, the response
    after [_generate_response_node] is exactly
    [_generate_goodbye_response], without the closing invitation, with
    intent ["goodbye"] and confidence 0.9. *)
Theorem goodbye_gets_no_invitation E now si s log :
  any_in greeting_words (strip (lower (input_message s))) = false ->
  any_in goodbye_words (strip (lower (input_message s))) = true ->
  truthy (response s) = false ->
  (si = true ->
   success (process_service_intent E now (input_message s) (sender_phone s)
              log).1 = false) ->
  let g := _generate_response_node si
             (_process_message_node E now si s log).1 in
  response g = _generate_goodbye_response
  /\ intent g = Some "goodbye"
  /\ confidence g = (9 # 10)%Q
  /\ is_goodbye g = true.
Proof.
  intros Hgreet Hbye Hresp Hfail.
  assert (Hgoal : forall s0,
            input_message s0 = input_message s -> response s0 = response s ->
            let g := _generate_response_node si (analyse_message s0) in
            response g = _generate_goodbye_response
            /\ intent g = Some "goodbye"
            /\ confidence g = (9 # 10)%Q
            /\ is_goodbye g = true).
  { intros s0 Hin Hr0. unfold analyse_message. rewrite Hin, Hgreet, Hbye.
    cbn [detect_intent]. rewrite <- Hr0 in Hresp.
    destruct s0 as [im ph rs mt ch pe ve ml ig ib iq it cf sent su sat sar se].
    st_cbn. unfold _generate_response_node, intent_is. st_cbn.
    rewrite Hresp, andb_false_r. cbn [String.eqb Ascii.eqb Bool.eqb].
    replace (truthy _generate_goodbye_response) with true
      by (vm_compute; reflexivity).
    st_cbn. unfold _post_process_response. st_cbn.
    rewrite andb_false_r. cbn [negb andb].
    repeat split; vm_compute; reflexivity. }
  cbn zeta. unfold _process_message_node. destruct si.
  - unfold bind. specialize (Hfail eq_refl).
    destruct (process_service_intent E now (input_message s) (sender_phone s)
                log) as [r log1]. cbn [fst snd] in *. rewrite Hfail.
    unfold ret. cbn [fst snd]. apply Hgoal; by destruct s.
  - unfold ret. cbn [fst snd]. by apply Hgoal.
Qed.

End MoreAgentFacts.

(** Instances of the theorems above, on ASCII text. *)

Section MoreAgentFactsWitnesses.
Import PyStr Re LuniaAgent Samples Shapes.
#[local] Existing Instance plain.

Lemma successful_service_action_is_the_reply_witness :
  let processed := _process_message_node failing_kb ten_am true
                     (new_state the_mail "5491") [] in
  let generated := _generate_response_node true processed.1 in
  response generated = "✅ Email enviado exitosamente a test@example.com"
  /\ intent generated = Some "service_email_sent"
  /\ service_action_taken generated = true.
Proof.
  destruct (successful_service_action_is_the_reply failing_kb ten_am
              (new_state the_mail "5491") [])
    as (_ & _ & Hr & _ & Hi & _ & Ht & _); [vm_compute; reflexivity|].
  cbn zeta in *. rewrite Hr, Hi, Ht. vm_compute. repeat split.
Defined.

Lemma accepted_input_is_normalised_witness :
  let v := _validate_input_node
             (new_state (utf8 160 +:+ " Hola " +:+ utf8 8232) "5491") in
  input_message v = "Hola" /\ message_length v = 4.
Proof.
  destruct (accepted_input_is_normalised
              (new_state (utf8 160 +:+ " Hola " +:+ utf8 8232) "5491")
              eq_refl) as (Hin & _ & _ & _ & Hml & _).
  cbn zeta. rewrite Hml, Hin. split; reflexivity.
Defined.

Lemma goodbye_gets_no_invitation_witness :
  response (_generate_response_node false
              (_process_message_node null_calendar ten_am false
                 (new_state "ok, thanks bye" "5491") []).1)
  = _generate_goodbye_response.
Proof.
  refine (proj1 (goodbye_gets_no_invitation null_calendar ten_am false
                   (new_state "ok, thanks bye" "5491") [] _ _ _ _)).
  - vm_compute. reflexivity.
  - vm_compute. reflexivity.
  - reflexivity.
  - intros H. discriminate H.
Defined.

End MoreAgentFactsWitnesses.

(** ** The session record of a turn *)

Section TurnRecord.
Import PyStr SessionManager Shapes Samples.

Lemma most_recent_keeps_tail {A} (n : nat) (l tail : list A) :
  length tail <= n -> ends_with tail (most_recent n (l ++ tail)).
Proof.
  intros Hn. unfold most_recent, ends_with. rewrite length_app.
  exists (drop (length l + length tail - n) l).
  rewrite drop_app_le by lia. done.
Qed.

(** Two appends at the same clock reading, as [_update_session_async]
    makes them. *)
Lemma add_message_pair cfg now uid c1 c2 (st : store) :
  wf_store st ->
  (0 <= SESSION_TIMEOUT_MINUTES cfg)%Z ->
  (2 <= MAX_CONVERSATION_HISTORY cfg)%Z ->
  exists s,
    add_message cfg now uid ASSISTANT c2 None
      (add_message cfg now uid USER c1 None st) !! uid = Some s
    /\ ends_with
         [ {| role := USER; content := c1; timestamp := now;
              turn_metadata := None |};
           {| role := ASSISTANT; content := c2; timestamp := now;
              turn_metadata := None |} ]
         (conversation_history s)
    /\ last_activity s = now.
Proof.
  intros Hwf Htimeout Hmax.
  destruct (add_message_stored cfg now uid USER c1 None st Hwf) as [s0 Hs1].
  pose proof (wf_add_message cfg now uid USER c1 None st Hwf) as Hwf1.
  set (st1 := add_message cfg now uid USER c1 None st) in *.
  set (s1 := set_last_activity now
               (limit_history cfg (add_turn now USER c1 None s0))) in *.
  assert (Hlive : _is_session_expired cfg now s1 = false).
  { unfold _is_session_expired. subst s1. cbn [last_activity set_last_activity].
    apply Z.ltb_ge. unfold Time.minutes.
    assert (0 < Time.minute)%Z by reflexivity. nia. }
  rewrite (add_message_live cfg now uid ASSISTANT c2 None st1 s1) by done.
  rewrite lookup_insert_eq. eexists. split; [done|].
  cbn [last_activity set_last_activity conversation_history]. split; [|done].
  rewrite limit_history_spec by lia.
  subst s1. cbn [add_turn set_history set_last_activity conversation_history].
  rewrite limit_history_spec by lia.
  cbn [add_turn set_history set_last_activity conversation_history].
  rewrite most_recent_snoc by lia. rewrite <- app_assoc. cbn [app].
  apply most_recent_keeps_tail. cbn [length]. lia.
Qed.

(** X25: [_update_session_async] records the exchange: for a store that
    files sessions under their user, a non-negative timeout, a history limit
    of at least 2 and a state that holds a reply, the session of the sender
    exists afterwards, is stamped with the time of the call, and its history
    ends with the user's message followed by the assistant's reply;
    [session_updated] is set. *)
Theorem turn_is_recorded cfg now state (st : store) :
  wf_store st ->
  (0 <= SESSION_TIMEOUT_MINUTES cfg)%Z ->
  (2 <= MAX_CONVERSATION_HISTORY cfg)%Z ->
  truthy (LuniaAgent.response state) = true ->
  let out := LuniaAgent._update_session_async cfg now state st in
  LuniaAgent.session_updated out.1 = true
  /\ exists s,
       out.2 !! LuniaAgent.sender_phone state = Some s
       /\ ends_with
            [ {| role := USER;
                 content := LuniaAgent.input_message state;
                 timestamp := now; turn_metadata := None |};
              {| role := ASSISTANT;
                 content := LuniaAgent.response state;
                 timestamp := now; turn_metadata := None |} ]
            (conversation_history s)
       /\ last_activity s = now.
Proof.
  intros Hwf Htimeout Hmax Hresp out. subst out.
  unfold LuniaAgent._update_session_async. rewrite Hresp. cbn [fst snd].
  split; [by destruct state|]. by apply add_message_pair.
Qed.

Lemma turn_is_recorded_witness :
  let state := LuniaAgent.with_response "Hola!"
                 (LuniaAgent.new_state "Hola" "5491") in
  exists s,
    (LuniaAgent._update_session_async Config ten_am state ∅).2 !! "5491"
    = Some s
    /\ map content (conversation_history s) = ["Hola"; "Hola!"]
    /\ last_activity s = ten_am.
Proof.
  destruct (turn_is_recorded Config ten_am
              (LuniaAgent.with_response "Hola!"
                 (LuniaAgent.new_state "Hola" "5491")) ∅ wf_empty)
    as (_ & s & Hs & _ & Hlast); [vm_compute; discriminate ..| reflexivity |].
  cbn zeta. exists s. split; [exact Hs|]. split; [|exact Hlast].
  vm_compute in Hs. injection Hs as <-. reflexivity.
Defined.

End TurnRecord.
